(** * package_facts: backend parsers, availability probes and selection

    A shallow embedding of [lib/ansible/modules/package_facts.py].

    Python text is modelled by [string]; a character stands for the code
    point of the same number, so the model covers text whose code points
    are below 256.  The character classes below are the ones Python 3 uses
    on that range ([str.isspace], the [\s] and [\w] of [re] on [str]
    patterns, the line boundaries of [str.splitlines], [str.lower]). *)

From stdpp Require Import gmap strings list fin_maps.
From Stdlib Require Import Ascii String ZArith Lia DecimalString.

Open Scope string_scope.

(** ** Python text primitives *)

Module Py.

Definition code (c : ascii) : N := N_of_ascii c.

Definition between (lo hi : N) (c : ascii) : bool :=
  ((lo <=? code c) && (code c <=? hi))%N.

Definition is_code (n : N) (c : ascii) : bool := (code c =? n)%N.

(** [str.isspace], also the class [\s] of [re]. *)
Definition isspace (c : ascii) : bool :=
  between 9 13 c || between 28 32 c || is_code 133 c || is_code 160 c.

(** The class [\w] of [re]: alphanumeric characters and the underscore. *)
Definition isword (c : ascii) : bool :=
  between 48 57 c || between 65 90 c || is_code 95 c || between 97 122 c
  || is_code 170 c || between 178 179 c || is_code 181 c || between 185 186 c
  || between 188 190 c || between 192 214 c || between 216 246 c
  || between 248 255 c.

(** The line boundaries of [str.splitlines]. *)
Definition islinebreak (c : ascii) : bool :=
  between 10 13 c || between 28 30 c || is_code 133 c.

Definition isdigit (c : ascii) : bool := between 48 57 c.

(** The letters, digits and underscore of an ASCII class
    [[a-zA-Z0-9_]]; [re.IGNORECASE] adds no character below 256. *)
Definition isalnum_ (c : ascii) : bool :=
  between 48 57 c || between 65 90 c || is_code 95 c || between 97 122 c.

(** The whitespace [int()] strips around a number. *)
Definition isintspace (c : ascii) : bool :=
  between 9 13 c || is_code 32 c || is_code 133 c || is_code 160 c.

(** [str.lower] on one character. *)
Definition lower_char (c : ascii) : ascii :=
  if between 65 90 c || between 192 214 c || between 216 222 c
  then ascii_of_N (code c + 32)
  else c.

Fixpoint lower (s : string) : string :=
  match s with
  | "" => ""
  | String c s' => String (lower_char c) (lower s')
  end.

(** Membership of a character in a literal set of characters. *)
Fixpoint mem (c : ascii) (set : string) : bool :=
  match set with
  | "" => false
  | String d set' => Ascii.eqb c d || mem c set'
  end.

Fixpoint rev_onto (acc s : string) : string :=
  match s with
  | "" => acc
  | String c s' => rev_onto (String c acc) s'
  end.

Definition rev (s : string) : string := rev_onto "" s.

(** The longest prefix whose characters satisfy [p], and the rest. *)
Fixpoint span (p : ascii -> bool) (s : string) : string * string :=
  match s with
  | "" => ("", "")
  | String c s' =>
      if p c then let '(a, b) := span p s' in (String c a, b)
      else ("", s)
  end.

Definition lstrip_with (p : ascii -> bool) (s : string) : string :=
  snd (span p s).

Definition rstrip_with (p : ascii -> bool) (s : string) : string :=
  rev (lstrip_with p (rev s)).

(** [s.lstrip()] *)
Definition lstrip (s : string) : string := lstrip_with isspace s.

(** Puts a character in front of the first piece of a split. *)
Definition cons_head (c : ascii) (l : list string) : list string :=
  match l with
  | h :: t => String c h :: t
  | [] => [String c ""]
  end.

(** [s.split(c, maxsplit)] for a separator of one character;
    [None] is Python's default, no limit. *)
Fixpoint split (c : ascii) (maxsplit : option nat) (s : string)
  : list string :=
  match s with
  | "" => [""]
  | String a s' =>
      match maxsplit with
      | Some 0 => cons_head a (split c maxsplit s')
      | _ =>
          if Ascii.eqb a c
          then "" :: split c (Nat.pred <$> maxsplit) s'
          else cons_head a (split c maxsplit s')
      end
  end.

(** [s.rsplit(c, maxsplit)] *)
Definition rsplit (c : ascii) (maxsplit : option nat) (s : string)
  : list string :=
  List.rev (List.map rev (split c maxsplit (rev s))).

(** [s.split(sep)] for a separator of several characters (not empty):
    occurrences are found from the left and do not overlap; [skip]
    counts the characters of a found separator still to pass. *)
Fixpoint split_str_from (sep : string) (skip : nat) (s : string)
  : list string :=
  match s with
  | "" => [""]
  | String a s' =>
      match skip with
      | S k => split_str_from sep k s'
      | O =>
          if String.prefix sep s
          then "" :: split_str_from sep (String.length sep - 1) s'
          else cons_head a (split_str_from sep 0 s')
      end
  end.

Definition split_str (sep s : string) : list string :=
  split_str_from sep 0 s.

(** The pieces between separating characters, empty ones included. *)
Fixpoint pieces (p : ascii -> bool) (s : string) : list string :=
  match s with
  | "" => [""]
  | String a s' =>
      if p a then "" :: pieces p s' else cons_head a (pieces p s')
  end.

Definition nonempty (s : string) : bool :=
  match s with "" => false | _ => true end.

(** [s.split()]: runs of whitespace separate, no empty piece. *)
Definition split_ws (s : string) : list string :=
  List.filter nonempty (pieces isspace s).

(** The lines of [s], the text after the last boundary included;
    a line feed right after a carriage return ends the same line. *)
Fixpoint lines_from (after_cr : bool) (s : string) : list string :=
  match s with
  | "" => [""]
  | String a s' =>
      if after_cr && is_code 10 a then lines_from false s'
      else if islinebreak a then "" :: lines_from (is_code 13 a) s'
      else cons_head a (lines_from false s')
  end.

(** [s.splitlines()]: no empty line after the last boundary. *)
Definition splitlines (s : string) : list string :=
  let ls := lines_from false s in
  match List.last ls "x" with
  | "" => List.removelast ls
  | _ => ls
  end.

(** [sep.join(l)] *)
Definition join (sep : string) (l : list string) : string :=
  String.concat sep l.

(** [c in s] for one character. *)
Definition contains (c : ascii) (s : string) : bool := mem c s.

Definition digit_value (c : ascii) : Z := Z.of_N (code c) - 48.

Fixpoint decimal_from (acc : Z) (s : string) : Z :=
  match s with
  | "" => acc
  | String c s' => decimal_from (10 * acc + digit_value c) s'
  end.

Fixpoint all_chars (p : ascii -> bool) (s : string) : bool :=
  match s with
  | "" => true
  | String c s' => p c && all_chars p s'
  end.

(** [int(s)]: surrounding whitespace, an optional sign, then groups of
    decimal digits separated by single underscores; [None] stands for
    the [ValueError] of any other text.  (The limit CPython puts on the
    number of digits is not modelled.) *)
Definition int (s : string) : option Z :=
  let t := rstrip_with isintspace (lstrip_with isintspace s) in
  let '(neg, body) :=
    match t with
    | String "-" b => (true, b)
    | String "+" b => (false, b)
    | _ => (false, t)
    end in
  let groups := split "_" None body in
  if forallb (fun g => nonempty g && all_chars isdigit g) groups
  then
    let v := decimal_from 0 (String.concat "" groups) in
    Some (if neg then - v else v)%Z
  else None.

End Py.

(** ** Values, records and exceptions *)

(** The values a package record holds. *)
Inductive value : Type :=
| VStr (s : string)
| VBool (b : bool)
| VInt (z : Z)
| VNone
| VList (l : list string).

(** The exceptions the parsers can raise; a [KeyError] carries the key
    that was looked up. *)
Inductive exn : Type :=
| KeyError (key : value)
| IndexError
| ValueError
| AttributeError.

Inductive result (A : Type) : Type :=
| Ok (a : A)
| Raise (e : exn).

Arguments Ok {A} a.
Arguments Raise {A} e.

Definition bind {A B : Type} (r : result A) (k : A -> result B) : result B :=
  match r with
  | Ok a => k a
  | Raise e => Raise e
  end.

Notation "'let*' x := r 'in' k" := (bind r (fun x => k))
  (at level 10, x pattern, r at level 100, k at level 200).

(** A package record: a [dict] with text keys. *)
Abbreviation record := (gmap string value).

(** [l[i]] for [i >= 0] *)
Definition item {A : Type} (l : list A) (i : nat) : result A :=
  match l !! i with
  | Some x => Ok x
  | None => Raise IndexError
  end.

(** [l[-1]] *)
Definition last_item {A : Type} (l : list A) : result A :=
  match List.rev l with
  | x :: _ => Ok x
  | [] => Raise IndexError
  end.

(** [dict(zip(keys, vals))]: later pairs overwrite earlier ones. *)
Definition dict_zip (keys vals : list string) : record :=
  foldl (fun m kv => <[kv.1 := VStr kv.2]> m) ∅ (zip keys vals).

(** [m[k]] where the value is text. *)
Definition getstr (m : record) (k : string) : result string :=
  match m !! k with
  | Some (VStr s) => Ok s
  | Some _ => Raise AttributeError
  | None => Raise (KeyError (VStr k))
  end.

(** [if k in m: m = f(m[k])], for a text value. *)
Definition when_in (k : string) (m : record) (f : string -> result record)
  : result record :=
  match m !! k with
  | None => Ok m
  | Some _ => let* s := getstr m k in f s
  end.

(** [bool(n)] for an integer. *)
Definition truthy (z : Z) : bool := negb (z =? 0)%Z.

(** The settings every manager object carries
    ([set_package_details], [set_all_available]). *)
Record PkgMgr : Type := Manager {
  _need_package_details : bool;
  _all_available : bool
}.

Definition tab : ascii := ascii_of_N 9.
Definition newline : ascii := ascii_of_N 10.
Definition dquote : string := String (ascii_of_N 34) "".

(** ** The process environment of the availability probes

    What the probes ask of the host and of the running process:
    whether a library imports ([LibMgr.is_available]), where a program is
    ([get_bin_path], [None] for its [ValueError]), whether this process
    is a respawned copy ([has_respawned]), which of some interpreters
    imports a library ([probe_interpreters_for_module], [None] when none
    does) and the text of [missing_required_lib]. *)
Record env : Type := Env {
  lib_importable : string -> bool;
  get_bin_path : string -> option string;
  has_respawned : bool;
  probe_interpreters_for_module : list string -> string -> option string;
  missing_required_lib : string -> string
}.

(** How a probe, or a whole run, of a backend ends: it returns, it
    raises, or [respawn_module] hands the run to a copy under another
    interpreter and the process ends with it. *)
Inductive ending (A : Type) : Type :=
| Returns (a : A)
| Raises (msg : string)
| Respawns (interpreter_path : string).

Arguments Returns {A} a.
Arguments Raises {A} msg.
Arguments Respawns {A} interpreter_path.

(** A probe: the warnings it gave to [module.warn], and its ending. *)
Record probe : Type := Probe {
  probe_warnings : list string;
  probe_ending : ending bool
}.

(** [if interpreter_path:] *)
Definition found_interpreter (o : option string) : option string :=
  match o with
  | Some path => if Py.nonempty path then Some path else None
  | None => None
  end.

(** ** Commands

    [module.run_command] is given a list of arguments, with the
    environment variables it updates, or one line for the shell
    ([use_unsafe_shell]); it returns the exit code and the two outputs. *)
Inductive command : Type :=
| Argv (args : list string) (environ_update : list (string * string))
| Shell (line : string).

Record completed : Type := Completed {
  return_code : Z;
  out : string;
  err : string
}.

(** What a listing raises. *)
Inductive listing_exn : Type :=
| Exception (msg : string)
| RuntimeError (msg : string).

(** [str(n)] for an integer. *)
Definition show_int (z : Z) : string := NilZero.string_of_int (Z.to_int z).

Definition unable_to_list (rc : Z) (err : string) : string :=
  "Unable to list packages rc=" ++ show_int rc ++ " : " ++ err.

(** [if return_code != 0 or err:] *)
Definition failed (r : completed) : bool :=
  negb (return_code r =? 0)%Z || Py.nonempty (err r).

(** ** The per-entry parsers *)

Module RPM.

Inductive tag : Type :=
| RPMTAG_NAME | RPMTAG_VERSION | RPMTAG_RELEASE | RPMTAG_EPOCH | RPMTAG_ARCH.

(** A header of the rpm binding, indexed by tag. *)
Definition header : Type := tag -> value.

Definition get_package_details (self : PkgMgr) (package : header)
  : record :=
  let res : record := {[ "name" := package RPMTAG_NAME ]} in
  if _need_package_details self then
    <["arch" := package RPMTAG_ARCH]>
      (<["epoch" := package RPMTAG_EPOCH]>
        (<["release" := package RPMTAG_RELEASE]>
          (<["version" := package RPMTAG_VERSION]> res)))
  else res.

Definition LIB : string := "rpm".

Definition interpreters : list string :=
  ["/usr/libexec/platform-python"; "/usr/bin/python3"; "/usr/bin/python2"].

Definition is_available (self : PkgMgr) (e : env) : probe :=
  if _all_available self then Probe [] (Returns false)
  else
    let we_have_lib := lib_importable e LIB in
    match get_bin_path e "rpm" with
    | None => Probe [] (Returns we_have_lib)
    | Some _ =>
        let respawn :=
          if negb we_have_lib && negb (has_respawned e)
          then found_interpreter
                 (probe_interpreters_for_module e interpreters LIB)
          else None in
        match respawn with
        | Some interpreter_path => Probe [] (Respawns interpreter_path)
        | None =>
            if negb we_have_lib
            then Probe ["Found " ++ dquote ++ "rpm" ++ dquote ++ " but "
                        ++ missing_required_lib e LIB]
                       (Returns we_have_lib)
            else Probe [] (Returns we_have_lib)
        end
    end.

End RPM.

Module APT.

Record origin_t : Type := { origin : value }.

Record version_t : Type := {
  version : value;
  architecture : value;
  section : value;
  origins : list origin_t
}.

(** An entry of the apt cache; [installed] is [None] when no version
    is installed. *)
Record package_t : Type := {
  is_installed : bool;
  installed : option version_t
}.

Abbreviation cache := (gmap string package_t).

Definition get_package_details (self : PkgMgr) (pkg_cache : cache)
    (package : string) : result record :=
  if negb (_need_package_details self) then Ok {[ "name" := VStr package ]}
  else
    let* pkg_data :=
      match pkg_cache !! package with
      | Some d => Ok d
      | None => Raise (KeyError (VStr package))
      end in
    let res : record := {[ "name" := VStr package ]} in
    if _all_available self then
      Ok (<["is_installed" := VBool (is_installed pkg_data)]> res)
    else
      match installed pkg_data with
      | None => Raise AttributeError
      | Some ac_pkg =>
          let* o := item (origins ac_pkg) 0 in
          Ok (<["origin" := origin o]>
               (<["category" := section ac_pkg]>
                 (<["arch" := architecture ac_pkg]>
                   (<["version" := version ac_pkg]> res))))
      end.

Definition LIB : string := "apt".

Definition interpreters : list string :=
  ["/usr/bin/python3"; "/usr/bin/python2"].

(** The loop over the programs that tell an apt system; it runs only
    when the library does not import, so the [we_have_lib] it returns
    in the end is [false]. *)
Fixpoint look_for (e : env) (exes : list string) : probe :=
  match exes with
  | [] => Probe [] (Returns false)
  | exe :: rest =>
      match get_bin_path e exe with
      | None => look_for e rest
      | Some _ =>
          let respawn :=
            if negb (has_respawned e)
            then found_interpreter
                   (probe_interpreters_for_module e interpreters LIB)
            else None in
          match respawn with
          | Some interpreter_path => Probe [] (Respawns interpreter_path)
          | None =>
              Probe ["Found " ++ dquote ++ exe ++ dquote ++ " but "
                     ++ missing_required_lib e "apt"]
                    (Returns false)
          end
      end
  end.

Definition is_available (self : PkgMgr) (e : env) : probe :=
  let we_have_lib := lib_importable e LIB in
  if negb we_have_lib then look_for e ["apt"; "apt-get"; "aptitude"]
  else Probe [] (Returns we_have_lib).

(** [cache.keys()], in the order of the binding. *)
Definition keys (pkg_cache : cache) : list string :=
  (map_to_list pkg_cache).*1.

(** [cache[pk].is_installed] for a key of the cache. *)
Definition installed_in (pkg_cache : cache) (pk : string) : bool :=
  match pkg_cache !! pk with
  | Some pkg_data => is_installed pkg_data
  | None => false
  end.

Definition list_installed (self : PkgMgr) (pkg_cache : cache)
  : list string :=
  List.filter
    (fun pk => _all_available self || installed_in pkg_cache pk)
    (keys pkg_cache).

End APT.

Module PACMAN.

(** The class of the characters of a key, and the class of the dot of
    the pattern. *)
Definition word_or_space (c : ascii) : bool :=
  Py.isword c || Ascii.eqb c " ".

Definition not_newline (c : ascii) : bool := negb (Ascii.eqb c newline).

(** The two groups of the pattern [re.match] tries on a line: a key
    made of word characters and spaces that ends in a word character,
    one or more spaces, a colon, a space, and the value.  The colon is
    the first character that is neither a word character nor a space,
    so the key is the run before it without the spaces that end it; the
    value goes to the end of the line. *)
Definition key_value (line : string) : option (string * string) :=
  let '(run, rest) := Py.span word_or_space line in
  let key := Py.rstrip_with (Ascii.eqb " ") run in
  if negb (Py.nonempty key) then None
  else if (String.length key =? String.length run)%nat then None
  else
    match rest with
    | String ":" (String " " v) =>
        Some (key, fst (Py.span not_newline v))
    | _ => None
    end.

(** One turn of the loop over the lines: the details read so far and
    the key of the last one. *)
Definition read_line (st : gmap string string * option string)
    (line : string) : result (gmap string string * option string) :=
  let '(raw_pkg_details, last_detail) := st in
  match key_value line with
  | Some (k, v) => Ok (<[k := v]> raw_pkg_details, Some k)
  | None =>
      match last_detail with
      | None => Raise (KeyError VNone)
      | Some k =>
          match raw_pkg_details !! k with
          | None => Raise (KeyError (VStr k))
          | Some v =>
              Ok (<[k := v ++ "  " ++ Py.lstrip line]> raw_pkg_details,
                  last_detail)
          end
      end
  end.

Fixpoint read_lines (st : gmap string string * option string)
    (lines : list string) : result (gmap string string * option string) :=
  match lines with
  | [] => Ok st
  | line :: rest => let* st' := read_line st line in read_lines st' rest
  end.

Definition detail (raw_pkg_details : gmap string string) (k : string)
  : result string :=
  match raw_pkg_details !! k with
  | Some v => Ok v
  | None => Raise (KeyError (VStr k))
  end.

Fixpoint provided_names (ps : list string) : result (list string) :=
  match ps with
  | [] => Ok []
  | p :: rest =>
      let* n := item (Py.split "=" None p) 0 in
      let* ns := provided_names rest in
      Ok (n :: ns)
  end.

Definition get_package_details (self : PkgMgr) (package : string)
  : result record :=
  let* (raw_pkg_details, _) :=
    read_lines (∅, None) (Py.splitlines package) in
  let* prov := detail raw_pkg_details "Provides" in
  let* provides :=
    if negb (String.eqb prov "None")
    then let* ns := provided_names (Py.split_str "  " prov) in Ok (VList ns)
    else Ok VNone in
  let* name := detail raw_pkg_details "Name" in
  let* version := detail raw_pkg_details "Version" in
  let* arch := detail raw_pkg_details "Architecture" in
  Ok (<["provides" := provides]>
       (<["arch" := VStr arch]>
         (<["version" := VStr version]>
           ({[ "name" := VStr name ]} : record)))).

Definition blank_line : string := String newline (String newline "").

Definition list_installed (_cli : string) (run_command : command -> completed)
  : listing_exn + list string :=
  let r := run_command (Argv [_cli; "-Qi"] [("LC_ALL", "C")]) in
  if failed r
  then inl (Exception (unable_to_list (return_code r) (err r)))
  else inr (List.removelast (Py.split_str blank_line (out r))).

End PACMAN.

Module PKG.

Definition atoms : list string :=
  ["name"; "version"; "origin"; "installed"; "automatic"; "arch";
   "category"; "prefix"; "vital"].

(** [pkg[k] = bool(int(pkg[k]))] when [k] is a key. *)
Definition to_bool (k : string) (pkg : record) : result record :=
  when_in k pkg (fun s =>
    match Py.int s with
    | Some z => Ok (<[k := VBool (truthy z)]> pkg)
    | None => Raise ValueError
    end).

Definition get_package_details (self : PkgMgr) (package : string)
  : result record :=
  let pkg := dict_zip atoms (Py.split tab None package) in
  let* pkg := when_in "arch" pkg (fun s =>
    match item (Py.split ":" None s) 2 with
    | Ok a => Ok (<["arch" := VStr a]> pkg)
    | Raise _ => Ok pkg
    end) in
  let* pkg := to_bool "automatic" pkg in
  let* pkg := when_in "category" pkg (fun s =>
    let* c := item (Py.split "/" (Some 1) s) 0 in
    Ok (<["category" := VStr c]> pkg)) in
  let* pkg := when_in "version" pkg (fun s =>
    let* (version, pkg) :=
      if Py.contains "," s then
        match Py.split "," (Some 1) s with
        | [v; e] => Ok (v, <["port_epoch" := VStr e]> (<["version" := VStr v]> pkg))
        | _ => Raise ValueError
        end
      else Ok (s, <["port_epoch" := VInt 0]> pkg) in
    if Py.contains "_" version then
      match Py.split "_" (Some 1) version with
      | [v; r] => Ok (<["revision" := VStr r]> (<["version" := VStr v]> pkg))
      | _ => Raise ValueError
      end
    else Ok (<["revision" := VStr "0"]> pkg)) in
  to_bool "vital" pkg.

Definition query_format : string :=
  "%" ++ Py.join (String tab "%") ["n"; "v"; "R"; "t"; "a"; "q"; "o"; "p"; "V"].

Definition list_installed (_cli : string) (run_command : command -> completed)
  : listing_exn + list string :=
  let r := run_command (Argv [_cli; "query"; query_format] []) in
  if failed r
  then inl (Exception (unable_to_list (return_code r) (err r)))
  else inr (Py.splitlines (out r)).

End PKG.

Module PORTAGE.

Definition atoms : list string :=
  ["category"; "name"; "version"; "ebuild_revision"; "slots"; "prefixes";
   "sufixes"].

Definition get_package_details (self : PkgMgr) (package : string)
  : record :=
  dict_zip atoms (Py.split_ws package).

Definition list_installed (_cli : string) (run_command : command -> completed)
  : listing_exn + list string :=
  let r := run_command
             (Shell (Py.join " "
                       [_cli; "-Iv"; "|"; "xargs"; "-n"; "1024"; "qatom"])) in
  if negb (return_code r =? 0)%Z
  then inl (RuntimeError (unable_to_list (return_code r) (err r)))
  else inr (Py.splitlines (out r)).

End PORTAGE.

Module APK.

Definition get_package_details (self : PkgMgr) (package : string)
  : result record :=
  let splitted := Py.split " " None package in
  let* spl_first := item splitted 0 in
  let nvr := Py.rsplit "-" (Some 2) spl_first in
  let* name := item nvr 0 in
  let ret : record := {[ "name" := VStr name ]} in
  if _need_package_details self then
    let* ret :=
      if (1 <? List.length nvr)%nat
      then let* v := item nvr 1 in Ok (<["version" := VStr v]> ret)
      else Ok ret in
    let* ret :=
      if (2 <? List.length nvr)%nat
      then let* r := item nvr 2 in Ok (<["release" := VStr r]> ret)
      else Ok ret in
    if _all_available self then
      let* l := last_item splitted in
      Ok (<["installed" := VBool (String.eqb l "[installed]")]> ret)
    else Ok ret
  else Ok ret.

Definition list_installed (self : PkgMgr) (_cli : string)
    (run_command : command -> completed) : listing_exn + list string :=
  let '(first_param, second_param) :=
    if _all_available self then ("list", "-q") else ("info", "-v") in
  let r := run_command (Argv [_cli; first_param; second_param] []) in
  if failed r
  then inl (Exception (unable_to_list (return_code r) (err r)))
  else inr (Py.splitlines (out r)).

End APK.

Module YUM.

(** The three character classes of the compiled pattern. *)
Definition name_char (c : ascii) : bool := Py.isalnum_ c || Py.mem c "-.+".
Definition version_char (c : ascii) : bool := Py.isalnum_ c || Py.mem c "-:.+~".
Definition repo_char (c : ascii) : bool := Py.isalnum_ c || Py.mem c "-:@".

(** The three groups of the compiled pattern on a line: optional
    whitespace, the name column, whitespace, the version column,
    whitespace, the repository column, optional whitespace, the end.
    No class holds a whitespace character, so each column is the
    longest run of its class. *)
Definition columns (package : string) : option (string * string * string) :=
  let '(_, r0) := Py.span Py.isspace package in
  let '(g1, r1) := Py.span name_char r0 in
  let '(w1, r2) := Py.span Py.isspace r1 in
  let '(g2, r3) := Py.span version_char r2 in
  let '(w2, r4) := Py.span Py.isspace r3 in
  let '(g3, r5) := Py.span repo_char r4 in
  let '(_, r6) := Py.span Py.isspace r5 in
  if Py.nonempty g1 && Py.nonempty w1 && Py.nonempty g2 && Py.nonempty w2
     && Py.nonempty g3 && negb (Py.nonempty r6)
  then Some (g1, g2, g3)
  else None.

(** [if len(l) == 2: (l[0], l[1]) else: otherwise] *)
Definition two_or (l : list string) (otherwise : string * string)
  : string * string :=
  match l with
  | [x; y] => (x, y)
  | _ => otherwise
  end.

(** [if s: res[k] = s] *)
Definition set_if (k s : string) (res : record) : record :=
  if Py.nonempty s then <[k := VStr s]> res else res.

Definition get_package_details (self : PkgMgr) (package : string)
  : record :=
  match columns package with
  | None => ∅
  | Some (first, ver_full, repo) =>
      let arch_list := Py.rsplit "." (Some 1) first in
      let '(pkg, arch) := two_or arch_list (first, "") in
      let res : record := {[ "name" := VStr pkg ]} in
      if negb (_need_package_details self) then res
      else
        let res := set_if "arch" arch res in
        let ver_list := Py.split ":" (Some 1) ver_full in
        let '(epoch, ver_tail) := two_or ver_list ("", ver_full) in
        let res := set_if "epoch" epoch res in
        let ver_list := Py.rsplit "-" (Some 1) ver_tail in
        let '(ver, release) := two_or ver_list (ver_tail, "") in
        let res := set_if "release" release res in
        <["repo" := VStr repo]> (<["version" := VStr ver]> res)
  end.

Definition list_installed (self : PkgMgr) (_cli : string)
    (run_command : command -> completed) : listing_exn + list string :=
  let cmdparam := if _all_available self then "--all" else "--installed" in
  let r := run_command (Argv [_cli; "list"; "-q"; cmdparam] []) in
  if failed r
  then inl (Exception (unable_to_list (return_code r) (err r)))
  else inr (Py.splitlines (out r)).

End YUM.

(** ** The selection of backends ([main]) *)

Inductive strategy_t : Type := first | all.

(** [module.params] *)
Record params : Type := Params {
  manager : list string;
  strategy : strategy_t;
  all_available : bool;
  need_package_details : bool
}.

(** The catalog: package name to the records of that name. *)
Abbreviation catalog := (gmap string (list record)).

(** [l.remove(x)]: the first occurrence goes. *)
Fixpoint remove_first (x : string) (l : list string) : list string :=
  match l with
  | [] => []
  | y :: l' => if String.eqb x y then l' else y :: remove_first x l'
  end.

(** [x in l] *)
Definition elem (x : string) (l : list string) : bool :=
  existsb (String.eqb x) l.

Definition is_first (s : strategy_t) : bool :=
  match s with first => true | all => false end.

(** The calls made on backend objects, in the order they happen. *)
Inductive event : Type :=
| Probed (pkgmgr : string)
| Listed (pkgmgr : string).

(** How the process ends. *)
Inductive outcome : Type :=
| fail_json (msg : string)
| exit_json (result_name : string) (packages : catalog)
| respawned (interpreter_path : string).

Record run : Type := Run {
  run_outcome : outcome;
  run_warnings : list string;
  run_events : list event
}.

(** [str] of a list of tags, which are lower-cased class names and so
    are shown unchanged between single quotes. *)
Definition show_tags (l : list string) : string :=
  "[" ++ Py.join ", " ((fun t => "'" ++ t ++ "'") <$> l) ++ "]".

Definition msg_auto_detect : string :=
  "Could not auto detect a usable package manager, check warnings for details.".

Definition msg_unsupported (tags : list string) : string :=
  "Unsupported package managers requested: " ++ Py.join ", " tags.

Definition msg_none_found (managers : list string) : string :=
  "Could not detect a supported package manager from the following list: "
  ++ show_tags managers
  ++ ", or the required Python library is not installed. Check warnings for details.".

Definition msg_not_usable (pkgmgr exc : string) : string :=
  "Requested package manager " ++ pkgmgr
  ++ " was not usable by this module: " ++ exc.

(** The expansion of [auto]: the known tags are appended and the first
    [auto] is removed. *)
Definition expand (package_manager_names managers : list string)
  : list string :=
  if elem "auto" managers
  then remove_first "auto" (managers ++ package_manager_names)
  else managers.

(** With [auto] and the [first] strategy, [rpm] goes before [yum]. *)
Definition prioritize (auto : bool) (strat : strategy_t)
    (managers : list string) : list string :=
  let higher_priority := "rpm" in
  let lower_priority := "yum" in
  if auto && elem higher_priority managers && elem lower_priority managers
     && is_first strat
  then higher_priority :: remove_first higher_priority managers
  else managers.

Section Selection.

(** The state of the host the backends query. *)
Context {world : Type}.

(** The lower-cased keys of [get_all_pkg_managers()]. *)
Variable package_manager_names : list string.

(** The order in which a set of tags is iterated. *)
Variable set_order : gset string -> list string.

(** Building the backend object of a tag with its settings and asking
    [is_available()]: the warnings given, the ending, the host after. *)
Variable is_available : string -> PkgMgr -> world -> probe * world.

(** [get_packages()] of the backend of a tag: the text of the
    exception it raises, or its catalog. *)
Variable get_packages :
  string -> PkgMgr -> world -> (string + catalog) * world.

Record state : Type := State {
  found : nat;
  seen : gset string;
  packages : catalog;
  warnings : list string;
  events : list event;
  host : world
}.

(** [module.warn(...)], given only for a requested tag. *)
Definition warn_requested (p : params) (pkgmgr exc : string)
    (ws : list string) : list string :=
  if elem pkgmgr (manager p)
  then ws ++ [msg_not_usable pkgmgr exc]
  else ws.

(** The body of the loop for a tag not seen before: the state after,
    or the interpreter the run was handed to. *)
Definition attempt (p : params) (pkgmgr : string) (st : state)
  : state * option string :=
  let self := Manager (need_package_details p) (all_available p) in
  let '(pr, w) := is_available pkgmgr self (host st) in
  let st := State (found st) ({[ pkgmgr ]} ∪ seen st) (packages st)
                  (warnings st ++ probe_warnings pr)
                  (events st ++ [Probed pkgmgr]) w in
  match probe_ending pr with
  | Respawns interpreter_path => (st, Some interpreter_path)
  | Raises exc =>
      (State (found st) (seen st) (packages st)
             (warn_requested p pkgmgr exc (warnings st))
             (events st) (host st), None)
  | Returns false => (st, None)
  | Returns true =>
      let '(r, w) := get_packages pkgmgr self (host st) in
      let st := State (S (found st)) (seen st) (packages st)
                      (warnings st) (events st ++ [Listed pkgmgr]) w in
      match r with
      | inl exc =>
          (State (found st) (seen st) (packages st)
                 (warn_requested p pkgmgr exc (warnings st))
                 (events st) (host st), None)
      | inr pkgs =>
          (State (found st) (seen st) (pkgs ∪ packages st)
                 (warnings st) (events st) (host st), None)
      end
  end.

(** [for pkgmgr in managers: ...] *)
Fixpoint iterate (p : params) (managers : list string) (st : state)
  : state * option string :=
  match managers with
  | [] => (st, None)
  | pkgmgr :: rest =>
      if (0 <? found st)%nat && is_first (strategy p) then (st, None)
      else if bool_decide (pkgmgr ∈ seen st) then iterate p rest st
      else
        match attempt p pkgmgr st with
        | (st', Some interpreter_path) => (st', Some interpreter_path)
        | (st', None) => iterate p rest st'
        end
  end.

Definition result_name (p : params) : string :=
  if all_available p then "available_packages" else "packages".

Definition main (p : params) (w : world) : run :=
  let managers := Py.lower <$> manager p in
  let auto := elem "auto" managers in
  let managers := expand package_manager_names managers in
  let unsupported : gset string :=
    list_to_set managers ∖ list_to_set package_manager_names in
  if negb (bool_decide (unsupported = ∅)) then
    let msg :=
      if elem "auto" (manager p) then msg_auto_detect
      else msg_unsupported (set_order unsupported) in
    Run (fail_json msg) [] []
  else
    let managers := prioritize auto (strategy p) managers in
    match iterate p managers (State 0 ∅ ∅ [] [] w) with
    | (st, Some interpreter_path) =>
        Run (respawned interpreter_path) (warnings st) (events st)
    | (st, None) =>
        if (found st =? 0)%nat
        then Run (fail_json (msg_none_found managers))
                 (warnings st) (events st)
        else Run (exit_json (result_name p) (packages st))
                 (warnings st) (events st)
    end.

End Selection.

(** ** The process tree of one invocation *)

Section ProcessTree.

Variable package_manager_names : list string.
Variable set_order : gset string -> list string.

(** [is_available()] of the backends other than [RPM] and [APT]; they
    build on [CLIMgr], whose code is not part of this module. *)
Variable cli_is_available : string -> PkgMgr -> env -> probe.

Variable get_packages : string -> PkgMgr -> env -> string + catalog.

(** The environment a copy runs in under each interpreter. *)
Variable under : string -> env.

(** The registry: [rpm] and [apt] are the two backends with a binding. *)
Definition backend_is_available (pkgmgr : string) (self : PkgMgr)
    (e : env) : probe * env :=
  if String.eqb pkgmgr "rpm" then (RPM.is_available self e, e)
  else if String.eqb pkgmgr "apt" then (APT.is_available self e, e)
  else (cli_is_available pkgmgr self e, e).

Definition backend_get_packages (pkgmgr : string) (self : PkgMgr)
    (e : env) : (string + catalog) * env :=
  (get_packages pkgmgr self e, e).

(** [respawn_module(interpreter_path)]: the copy runs under the
    interpreter, marked as respawned. *)
Definition respawn_module (interpreter_path : string) : env :=
  let e := under interpreter_path in
  Env (lib_importable e) (get_bin_path e) true
      (probe_interpreters_for_module e) (missing_required_lib e).

(** The runs of [main] in the tree of one invocation, parent first:
    a run that respawns is followed by the run of its copy. *)
Fixpoint process_tree (generations : nat) (p : params) (e : env)
  : list run :=
  match generations with
  | O => []
  | S g =>
      let r := main package_manager_names set_order
                    backend_is_available backend_get_packages p e in
      r :: match run_outcome r with
           | respawned interpreter_path =>
               process_tree g p (respawn_module interpreter_path)
           | _ => []
           end
  end.

Definition is_respawned (r : run) : bool :=
  match run_outcome r with
  | respawned _ => true
  | _ => false
  end.

End ProcessTree.

(** ** Vocabulary of the statements *)

(** The text [b] does not go on with a character of the class [p]. *)
Definition stops (p : ascii -> bool) (b : string) : Prop :=
  match b with
  | "" => True
  | String c _ => p c = false
  end.

(** A run of the class [p] that is not empty. *)
Definition run_of (p : ascii -> bool) (s : string) : Prop :=
  Py.nonempty s = true /\ Py.all_chars p s = true.

(** The pattern of the yum parser, read as a grammar: a line is
    whitespace, the name column, whitespace, the version column,
    whitespace, the repository column, whitespace; only the first and
    the last whitespace may be empty. *)
Definition yum_pattern (line g1 g2 g3 : string) : Prop :=
  exists w0 w1 w2 w3,
    line = w0 ++ g1 ++ w1 ++ g2 ++ w2 ++ g3 ++ w3
    /\ Py.all_chars Py.isspace w0 = true
    /\ run_of YUM.name_char g1
    /\ run_of Py.isspace w1
    /\ run_of YUM.version_char g2
    /\ run_of Py.isspace w2
    /\ run_of YUM.repo_char g3
    /\ Py.all_chars Py.isspace w3 = true.

(** The pattern of the pacman parser, read as a grammar: a line starts
    with a key of word characters and spaces that ends in a word
    character, then spaces (one at least), a colon, a space, and the
    value, which goes to the end of the line. *)
Definition pacman_pattern (line key val : string) : Prop :=
  exists k0 w sp tail,
    key = k0 ++ String w ""
    /\ line = key ++ sp ++ String ":" (String " " (val ++ tail))
    /\ Py.all_chars PACMAN.word_or_space k0 = true
    /\ Py.isword w = true
    /\ run_of (Ascii.eqb " ") sp
    /\ Py.all_chars PACMAN.not_newline val = true
    /\ stops PACMAN.not_newline tail.

(** [s] is [a], the character [c], then [b], at the first [c] of [s]. *)
Definition cut_at_first (c : ascii) (s a b : string) : Prop :=
  s = a ++ String c b /\ Py.mem c a = false.







(** The line of the pkg scenario. *)
Definition pkg_line : string :=
  let t := String tab "" in
  "foo" ++ t ++ "1.2,1_3" ++ t ++ "origin" ++ t ++ "1" ++ t ++ "0" ++ t
  ++ ":freebsd:x86_64" ++ t ++ "ports/foo" ++ t ++ "/usr/local" ++ t ++ "0".

(** The line of the yum scenario. *)
Definition yum_line : string := "bash.x86_64  4.4.20-1.el8  @BaseOS".

(** A cache with one installed package, [foo]. *)
Definition one_package_cache : APT.cache :=
  {[ "foo" :=
       {| APT.is_installed := true;
          APT.installed :=
            Some {| APT.version := VStr "1.0";
                    APT.architecture := VStr "amd64";
                    APT.section := VStr "utils";
                    APT.origins := [ {| APT.origin := VStr "Debian" |} ] |} |} ]}.

(** The tag an event is about. *)
Definition tag_of (ev : event) : string :=
  match ev with
  | Probed pkgmgr => pkgmgr
  | Listed pkgmgr => pkgmgr
  end.

Definition is_listed (ev : event) : bool :=
  match ev with
  | Listed _ => true
  | Probed _ => false
  end.

(** A host where every backend is available and only the listing of
    [rpm] raises. *)
Definition every_backend_available (pkgmgr : string) (self : PkgMgr)
    (w : unit) : probe * unit :=
  (Probe [] (Returns true), w).

Definition rpm_listing_raises (pkgmgr : string) (self : PkgMgr) (w : unit)
  : (string + catalog) * unit :=
  (if String.eqb pkgmgr "rpm" then inl "boom"
   else inr {[ "foo" := [ ({[ "name" := VStr "foo" ]} : record) ] ]}, w).


(** The request of [rpm] then [apt] under the [first] strategy. *)
Definition requested : params := Params ["rpm"; "apt"] first false true.

(** A host with the rpm program and no rpm binding, where the platform
    interpreter has the binding. *)
Definition host_without_binding : env :=
  Env (fun _ => false)
      (fun exe => if String.eqb exe "rpm" then Some "/usr/bin/rpm" else None)
      false
      (fun interpreters _ => List.head interpreters)
      (fun lib => "Failed to import the required Python library (" ++ lib ++ ")").

(** The same host under an interpreter that has the binding. *)
Definition host_with_binding : env :=
  Env (fun _ => true) (get_bin_path host_without_binding) false
      (probe_interpreters_for_module host_without_binding)
      (missing_required_lib host_without_binding).

(** A command-based backend is available when its program is found. *)
Definition program_found (pkgmgr : string) (self : PkgMgr) (e : env)
  : probe :=
  Probe [] (Returns (bool_decide (is_Some (get_bin_path e pkgmgr)))).

Definition no_packages (pkgmgr : string) (self : PkgMgr) (e : env)
  : string + catalog :=
  inr ∅.

(** The events of a state are consistent with its other fields: no call
    is logged twice, every logged tag has been seen, and [found] counts
    the listings. *)
Definition consistent {world : Type} (st : @state world) : Prop :=
  NoDup (events st)
  /\ (forall ev, ev ∈ events st -> tag_of ev ∈ seen st)
  /\ found st = List.length (List.filter is_listed (events st)).

(** [tok] is the text of [package] before its first space, the whole
    text when it has no space. *)
Definition first_token (package tok : string) : Prop :=
  Py.mem " " tok = false
  /\ (package = tok \/ exists rest, package = tok ++ String " " rest).

(** The line ends with the token [[installed]]. *)
Definition marked_installed (package : string) : Prop :=
  package = "[installed]" \/ exists pre, package = pre ++ " [installed]".

(** A field that is text when it is there. *)
Definition text_field (pkg : record) (k : string) : Prop :=
  forall v, pkg !! k = Some v -> exists s, v = VStr s.

(** The text [t] is cut at its first underscore into the version and
    the revision of the record; the revision is the text [0] when
    there is no underscore. *)
Definition version_and_revision (r : record) (t : string) : Prop :=
  (forall v rv, cut_at_first "_" t v rv ->
     r !! "version" = Some (VStr v) /\ r !! "revision" = Some (VStr rv))
  /\ (Py.mem "_" t = false ->
      r !! "version" = Some (VStr t) /\ r !! "revision" = Some (VStr "0")).

(** The version column [s] is cut at its first comma into the version
    with its revision and the port epoch; the port epoch is the integer
    0 when there is no comma. *)
Definition version_and_port_epoch (r : record) (s : string) : Prop :=
  (forall a b, cut_at_first "," s a b ->
     r !! "port_epoch" = Some (VStr b) /\ version_and_revision r a)
  /\ (Py.mem "," s = false ->
      r !! "port_epoch" = Some (VInt 0) /\ version_and_revision r s).

(** [sep in s] for texts. *)
Fixpoint occurs (sep s : string) : bool :=
  String.prefix sep s
  || match s with
     | "" => false
     | String _ s' => occurs sep s'
     end.

(** A block of the output of [pacman -Qi]: it has no empty line and
    does not end with a line feed. *)
Definition pacman_block (b : string) : Prop :=
  occurs PACMAN.blank_line (b ++ String newline "") = false.


(** A line of [apk info -v]. *)
Definition apk_line : string :=
  "busybox-1.36.1-r2 x86_64 {busybox} (GPL-2.0-only) [installed]".

(** A block of [pacman -Qi] whose last value goes on over a second
    line. *)
Definition pacman_entry : string :=
  let nl := String newline "" in
  "Name            : foo" ++ nl
  ++ "Version         : 1.0-1" ++ nl
  ++ "Architecture    : x86_64" ++ nl
  ++ "Provides        : libfoo=1  bar" ++ nl
  ++ "                  baz=2".


(** A host where every command prints two blocks and ends well. *)
Definition two_blocks_host (c : command) : completed :=
  Completed 0
    ("Name : a" ++ PACMAN.blank_line ++ "Name : b" ++ PACMAN.blank_line) "".

(** * Properties *)

(** ** Text *)

#[local] Arguments String.append !s1 s2 : simpl nomatch.

Section TextFacts.

Implicit Types (s a b acc : string) (c d : ascii).

Lemma append_nil_r s : s ++ "" = s.
Proof. induction s as [|x s IH]; simpl; [reflexivity | now f_equal]. Qed.

Lemma append_assoc a b s : (a ++ b) ++ s = a ++ (b ++ s).
Proof. induction a as [|x a IH]; simpl; [reflexivity | now f_equal]. Qed.

Lemma rev_onto_spec s : forall acc, Py.rev_onto acc s = Py.rev s ++ acc.
Proof.
  unfold Py.rev. induction s as [|x s IH]; intros acc; simpl.
  - reflexivity.
  - rewrite (IH (String x acc)), (IH (String x "")).
    now rewrite append_assoc.
Qed.

Lemma rev_cons c s : Py.rev (String c s) = Py.rev s ++ String c "".
Proof. unfold Py.rev at 1. simpl. apply rev_onto_spec. Qed.

Lemma rev_app a b : Py.rev (a ++ b) = Py.rev b ++ Py.rev a.
Proof.
  induction a as [|x a IH]; simpl.
  - change (Py.rev "") with "". now rewrite append_nil_r.
  - now rewrite !rev_cons, IH, append_assoc.
Qed.

Lemma rev_involutive s : Py.rev (Py.rev s) = s.
Proof.
  induction s as [|x s IH]; [reflexivity|].
  now rewrite rev_cons, rev_app, IH.
Qed.

Lemma mem_app c a b : Py.mem c (a ++ b) = Py.mem c a || Py.mem c b.
Proof.
  induction a as [|x a IH]; simpl; [reflexivity|].
  now rewrite IH, orb_assoc.
Qed.

Lemma mem_rev c s : Py.mem c (Py.rev s) = Py.mem c s.
Proof.
  induction s as [|x s IH]; [reflexivity|].
  rewrite rev_cons, mem_app, IH. simpl.
  now rewrite orb_false_r, orb_comm.
Qed.

Lemma split_zero c s : Py.split c (Some 0) s = [s].
Proof. induction s as [|x s IH]; simpl; [reflexivity | now rewrite IH]. Qed.

(** A text without the separator is one piece. *)
Lemma split_absent c m s : Py.mem c s = false -> Py.split c m s = [s].
Proof.
  revert m. induction s as [|x s IH]; intros m H; [reflexivity|].
  simpl in H. apply orb_false_elim in H as [Hx Hs].
  rewrite Ascii.eqb_sym in Hx. simpl. rewrite Hx, (IH m Hs).
  now destruct m as [[|n]|].
Qed.

(** With one split allowed, the cut is at the first separator. *)
Lemma split_first c a b :
  Py.mem c a = false -> Py.split c (Some 1) (a ++ String c b) = [a; b].
Proof.
  induction a as [|x a IH]; intros H; simpl.
  - now rewrite Ascii.eqb_refl, split_zero.
  - simpl in H. apply orb_false_elim in H as [Hx Ha].
    rewrite Ascii.eqb_sym in Hx. now rewrite Hx, (IH Ha).
Qed.

Lemma rsplit_absent c m s : Py.mem c s = false -> Py.rsplit c m s = [s].
Proof.
  intros H. unfold Py.rsplit.
  rewrite split_absent by now rewrite mem_rev.
  simpl. now rewrite rev_involutive.
Qed.


(** A split is never the empty list. *)
Lemma split_cons c m s : exists h t, Py.split c m s = h :: t.
Proof.
  revert m. induction s as [|x s IH]; intros m; simpl; [eauto|].
  destruct (IH m) as (h & t & E).
  destruct m as [[|n]|]; try destruct (Ascii.eqb x c);
    rewrite ?E; simpl; eauto.
Qed.

Lemma rsplit_cons c m s : exists h t, Py.rsplit c m s = h :: t.
Proof.
  unfold Py.rsplit.
  destruct (split_cons c m (Py.rev s)) as (h & t & E). rewrite E. simpl.
  destruct (List.rev (List.map Py.rev t)) as [|y l]; simpl; eauto.
Qed.

Lemma all_chars_app p a b :
  Py.all_chars p (a ++ b) = Py.all_chars p a && Py.all_chars p b.
Proof.
  induction a as [|x a IH]; simpl; [reflexivity|].
  now rewrite IH, andb_assoc.
Qed.

Lemma all_chars_rev p s : Py.all_chars p (Py.rev s) = Py.all_chars p s.
Proof.
  induction s as [|x s IH]; [reflexivity|].
  rewrite rev_cons, all_chars_app, IH. simpl.
  now rewrite andb_true_r, andb_comm.
Qed.

Lemma string_length_app a b :
  String.length (a ++ b) = String.length a + String.length b.
Proof. induction a as [|x a IH]; simpl; [reflexivity | now rewrite IH]. Qed.

Lemma string_length_rev s : String.length (Py.rev s) = String.length s.
Proof.
  induction s as [|x s IH]; [reflexivity|].
  rewrite rev_cons, string_length_app, IH. simpl. lia.
Qed.

Lemma nonempty_length s : Py.nonempty s = true <-> 0 < String.length s.
Proof. destruct s; simpl; split; intros H; try easy; lia. Qed.

(** What [span] returns: the text in two parts, the first in the class,
    the second not going on with it. *)
Lemma span_spec p s :
  s = (Py.span p s).1 ++ (Py.span p s).2
  /\ Py.all_chars p (Py.span p s).1 = true
  /\ stops p (Py.span p s).2.
Proof.
  induction s as [|x s (IH1 & IH2 & IH3)]; simpl; [easy|].
  destruct (p x) eqn:E.
  - destruct (Py.span p s) as [a b]. simpl in *.
    rewrite E. now rewrite <- IH1.
  - simpl. now rewrite E.
Qed.

(** A run of the class followed by a text that stops it is cut there. *)
Lemma span_app p a b :
  Py.all_chars p a = true -> stops p b -> Py.span p (a ++ b) = (a, b).
Proof.
  intros Ha Hb. induction a as [|x a IH]; simpl.
  - destruct b as [|c b]; [reflexivity|]. simpl in *. now rewrite Hb.
  - simpl in Ha. apply andb_prop in Ha as [Hx Ha].
    now rewrite Hx, (IH Ha).
Qed.

(** A run of a class that excludes [p] stops [p]. *)
Lemma run_stops (p q : ascii -> bool) g rest :
  (forall c, q c = true -> p c = false) ->
  run_of q g -> stops p (g ++ rest).
Proof.
  intros Hpq [Hn Hg]. destruct g as [|c g]; [discriminate Hn|].
  simpl in *. apply andb_prop in Hg as [Hc _]. now apply Hpq.
Qed.

End TextFacts.

(** ** The patterns *)

Section PatternFacts.

Implicit Types (s a b line : string) (c : ascii).

Lemma all_chars_impl (p q : ascii -> bool) s :
  (forall c, q c = true -> p c = true) ->
  Py.all_chars q s = true -> Py.all_chars p s = true.
Proof.
  intros Hqp. induction s as [|x s IH]; simpl; [easy|].
  intros H. apply andb_prop in H as [Hx Hs].
  now rewrite (Hqp x Hx), (IH Hs).
Qed.

Lemma span_all p a : Py.all_chars p a = true -> Py.span p a = (a, "").
Proof.
  intros H. rewrite <- (append_nil_r a) at 1. now apply span_app.
Qed.

(** No column class of the yum pattern holds a whitespace character. *)
Lemma space_not_column c :
  Py.isspace c = true ->
  YUM.name_char c = false /\ YUM.version_char c = false
  /\ YUM.repo_char c = false.
Proof.
  destruct c as [[] [] [] [] [] [] [] []]; vm_compute;
    intros H; try discriminate H; repeat split.
Qed.

Lemma column_not_space c :
  YUM.name_char c = true \/ YUM.version_char c = true
  \/ YUM.repo_char c = true ->
  Py.isspace c = false.
Proof.
  intros H. destruct (Py.isspace c) eqn:E; [|reflexivity].
  destruct (space_not_column c E) as (H1 & H2 & H3).
  rewrite H1, H2, H3 in H. now destruct H as [H | [H | H]].
Qed.

(** The columns the model reads are the groups of the pattern: the
    pattern has one way at most to match a line. *)
Lemma columns_pattern line g1 g2 g3 :
  YUM.columns line = Some (g1, g2, g3) <-> yum_pattern line g1 g2 g3.
Proof.
  split.
  - intros H. unfold YUM.columns in H.
    destruct (span_spec Py.isspace line) as (E0 & A0 & _).
    destruct (Py.span Py.isspace line) as [w0 r0]. cbn [fst snd] in *.
    destruct (span_spec YUM.name_char r0) as (E1 & A1 & _).
    destruct (Py.span YUM.name_char r0) as [x1 r1]. cbn [fst snd] in *.
    destruct (span_spec Py.isspace r1) as (E2 & A2 & _).
    destruct (Py.span Py.isspace r1) as [w1 r2]. cbn [fst snd] in *.
    destruct (span_spec YUM.version_char r2) as (E3 & A3 & _).
    destruct (Py.span YUM.version_char r2) as [x2 r3]. cbn [fst snd] in *.
    destruct (span_spec Py.isspace r3) as (E4 & A4 & _).
    destruct (Py.span Py.isspace r3) as [w2 r4]. cbn [fst snd] in *.
    destruct (span_spec YUM.repo_char r4) as (E5 & A5 & _).
    destruct (Py.span YUM.repo_char r4) as [x3 r5]. cbn [fst snd] in *.
    destruct (span_spec Py.isspace r5) as (E6 & A6 & _).
    destruct (Py.span Py.isspace r5) as [w3 r6]. cbn [fst snd] in *.
    destruct (Py.nonempty x1) eqn:N1; [|discriminate H].
    destruct (Py.nonempty w1) eqn:N2; [|discriminate H].
    destruct (Py.nonempty x2) eqn:N3; [|discriminate H].
    destruct (Py.nonempty w2) eqn:N4; [|discriminate H].
    destruct (Py.nonempty x3) eqn:N5; [|discriminate H].
    destruct r6 as [|c r6]; [|discriminate H].
    simpl in H. injection H as <- <- <-.
    exists w0, w1, w2, w3. unfold run_of.
    rewrite append_nil_r in E6. subst r5 r4 r3 r2 r1 r0. now repeat split.
  - intros (w0 & w1 & w2 & w3 & -> & A0 & [N1 A1] & [N2 A2] & [N3 A3]
            & [N4 A4] & [N5 A5] & A6).
    unfold YUM.columns.
    rewrite (span_app Py.isspace w0) by
      (try apply (run_stops _ YUM.name_char); try easy;
       intros c Hc; apply column_not_space; auto).
    rewrite (span_app YUM.name_char g1) by
      (try apply (run_stops _ Py.isspace); try easy;
       intros c Hc; now apply space_not_column).
    rewrite (span_app Py.isspace w1) by
      (try apply (run_stops _ YUM.version_char); try easy;
       intros c Hc; apply column_not_space; auto).
    rewrite (span_app YUM.version_char g2) by
      (try apply (run_stops _ Py.isspace); try easy;
       intros c Hc; now apply space_not_column).
    rewrite (span_app Py.isspace w2) by
      (try apply (run_stops _ YUM.repo_char); try easy;
       intros c Hc; apply column_not_space; auto).
    assert (S5 : stops YUM.repo_char w3).
    { destruct w3 as [|c w3]; [exact I|]. simpl in *.
      apply andb_prop in A6 as [Hc _]. now apply space_not_column. }
    rewrite (span_app YUM.repo_char g3 w3 A5 S5).
    rewrite (span_all Py.isspace w3 A6).
    now rewrite N1, N2, N3, N4, N5.
Qed.

Lemma word_not_space c : Py.isword c = true -> Ascii.eqb " " c = false.
Proof.
  intros H. destruct (Ascii.eqb_spec " " c) as [<-|]; [|reflexivity].
  discriminate H.
Qed.

Lemma rev_snoc s c : Py.rev (s ++ String c "") = String c (Py.rev s).
Proof. now rewrite rev_app. Qed.

(** The key and the value the model reads are the groups of the
    pattern. *)
Lemma key_value_pattern line key val :
  PACMAN.key_value line = Some (key, val) <-> pacman_pattern line key val.
Proof.
  split.
  - intros H. unfold PACMAN.key_value in H.
    destruct (span_spec PACMAN.word_or_space line) as (E0 & A0 & _).
    destruct (Py.span PACMAN.word_or_space line) as [run rest].
    cbn [fst snd] in *.
    unfold Py.rstrip_with, Py.lstrip_with in H.
    destruct (span_spec (Ascii.eqb " ") (Py.rev run)) as (E1 & A1 & S1).
    destruct (Py.span (Ascii.eqb " ") (Py.rev run)) as [sp b].
    cbn [fst snd] in *.
    assert (Erun : run = Py.rev b ++ Py.rev sp)
      by (now rewrite <- rev_app, <- E1, rev_involutive).
    destruct (Py.nonempty (Py.rev b)) eqn:Nk; [|discriminate H].
    cbn [negb] in H.
    destruct (String.length (Py.rev b) =? String.length run)%nat eqn:L;
      [discriminate H|].
    destruct rest as [|c1 [|c2 v]]; try discriminate H;
      try (now destruct c1 as [[] [] [] [] [] [] [] []]).
    destruct (Ascii.eqb_spec c1 ":") as [->|N1];
      [|now destruct c1 as [[] [] [] [] [] [] [] []]].
    destruct (Ascii.eqb_spec c2 " ") as [->|N2];
      [|now destruct c2 as [[] [] [] [] [] [] [] []]].
    injection H as <- <-.
    destruct (span_spec PACMAN.not_newline v) as (E2 & A2 & S2).
    destruct b as [|w b']; [discriminate Nk|].
    assert (Aall : Py.all_chars PACMAN.word_or_space (String w b') = true).
    { rewrite <- all_chars_rev, E1, all_chars_app in A0.
      now apply andb_prop in A0 as [_ A0]. }
    simpl in Aall. apply andb_prop in Aall as [Hw Ab].
    change (Ascii.eqb " " w = false) in S1.
    unfold PACMAN.word_or_space in Hw.
    exists (Py.rev b'), w, (Py.rev sp), (Py.span PACMAN.not_newline v).2.
    split; [apply rev_cons|]. split.
    + rewrite E0, Erun, append_assoc. now rewrite <- E2.
    + split; [now rewrite all_chars_rev|]. split.
      * rewrite Ascii.eqb_sym in S1. rewrite S1 in Hw.
        now rewrite orb_false_r in Hw.
      * split; [|now split]. split; [|now rewrite all_chars_rev].
        apply nonempty_length. apply Nat.eqb_neq in L.
        rewrite Erun, string_length_app in L. lia.
  - intros (k0 & w & sp & tail & -> & -> & A0 & Hw & [Ns As] & Av & St).
    unfold PACMAN.key_value.
    rewrite <- append_assoc.
    rewrite (span_app PACMAN.word_or_space ((k0 ++ String w "") ++ sp)).
    + unfold Py.rstrip_with, Py.lstrip_with.
      rewrite rev_app, rev_snoc.
      rewrite (span_app (Ascii.eqb " ") (Py.rev sp)) by
        (first [now rewrite all_chars_rev | now apply word_not_space]).
      cbn [snd]. rewrite rev_cons, rev_involutive.
      assert (Nk : Py.nonempty (k0 ++ String w "") = true)
        by (apply nonempty_length; rewrite string_length_app; simpl; lia).
      rewrite Nk. cbn [negb].
      assert (L : (String.length (k0 ++ String w "") =?
                   String.length ((k0 ++ String w "") ++ sp))%nat = false).
      { apply Nat.eqb_neq. apply nonempty_length in Ns.
        rewrite (string_length_app (k0 ++ String w "") sp). lia. }
      rewrite L. now rewrite (span_app PACMAN.not_newline val tail Av St).
    + rewrite !all_chars_app, A0. simpl.
      unfold PACMAN.word_or_space at 1. rewrite Hw. simpl.
      apply (all_chars_impl _ (Ascii.eqb " ")); [|exact As].
      intros c Hc. apply Ascii.eqb_eq in Hc. now subst c.
    + reflexivity.
Qed.

End PatternFacts.

(** ** The parsers *)

Section ParserFacts.

Implicit Types (self : PkgMgr) (r : record).

(** C1, as amended: for the pkg backend, the tab-separated line of the
    scenario parses to a record with every column of the query:
    name [foo], version [1.2], port_epoch [1_3] (all that follows the
    comma), revision [0] (the version before the comma has no
    underscore), origin, installed and prefix as read, arch [x86_64],
    category [ports], automatic and vital false. *)
Theorem pkg_scenario_record self :
  PKG.get_package_details self pkg_line =
  Ok (<["name" := VStr "foo"]>
      (<["version" := VStr "1.2"]>
      (<["port_epoch" := VStr "1_3"]>
      (<["revision" := VStr "0"]>
      (<["origin" := VStr "origin"]>
      (<["installed" := VStr "1"]>
      (<["arch" := VStr "x86_64"]>
      (<["category" := VStr "ports"]>
      (<["prefix" := VStr "/usr/local"]>
      (<["automatic" := VBool false]>
      ({[ "vital" := VBool false ]} : record))))))))))).
Proof. destruct self. vm_compute. reflexivity. Qed.

(** C1, as stated, fails: the record of the scenario line is not the
    one with port_epoch [1] and revision [3] and no other column. *)
Lemma pkg_scenario_not_as_stated :
  PKG.get_package_details (Manager true false) pkg_line <>
  Ok (<["name" := VStr "foo"]>
      (<["version" := VStr "1.2"]>
      (<["port_epoch" := VStr "1"]>
      (<["revision" := VStr "3"]>
      (<["arch" := VStr "x86_64"]>
      (<["category" := VStr "ports"]>
      (<["automatic" := VBool false]>
      ({[ "vital" := VBool false ]} : record)))))))).
Proof.
  intros H.
  assert (E : forall a b : record, Ok a = Ok b -> a !! "revision" = b !! "revision")
    by (intros a b [= ->]; reflexivity).
  apply E in H. vm_compute in H. discriminate H.
Qed.

(** C5: for the yum backend with details asked for, the line of the
    scenario parses to exactly name [bash], arch [x86_64], version
    [4.4.20], release [1.el8] and repo [@BaseOS]; there is no epoch
    field. *)
Theorem yum_scenario_record (all_avail : bool) :
  YUM.get_package_details (Manager true all_avail) yum_line =
  <["name" := VStr "bash"]>
    (<["arch" := VStr "x86_64"]>
      (<["version" := VStr "4.4.20"]>
        (<["release" := VStr "1.el8"]>
          ({[ "repo" := VStr "@BaseOS" ]} : record)))).
Proof. destruct all_avail; vm_compute; reflexivity. Qed.

Lemma set_if_lookup_ne k k' s r :
  k <> k' -> YUM.set_if k s r !! k' = r !! k'.
Proof.
  intros H. unfold YUM.set_if.
  destruct (Py.nonempty s); [now rewrite lookup_insert_ne | reflexivity].
Qed.

(** Lookups through inserts at other keys. *)
Ltac look :=
  repeat first
    [ rewrite lookup_insert_eq
    | rewrite lookup_singleton_eq
    | rewrite lookup_insert_ne by discriminate
    | rewrite set_if_lookup_ne by discriminate
    | rewrite lookup_singleton_ne by discriminate ];
  try reflexivity.







Lemma yum_names_only self package :
  _need_package_details self = false ->
  ((forall g1 g2 g3, ~ yum_pattern package g1 g2 g3) ->
   YUM.get_package_details self package = ∅)
  /\ (forall g1 g2 g3, yum_pattern package g1 g2 g3 ->
      exists name,
        YUM.get_package_details self package = {[ "name" := VStr name ]}).
Proof.
  intros Hn. unfold YUM.get_package_details. split.
  - intros H. destruct (YUM.columns package) as [[[g1 g2] g3]|] eqn:E;
      [|reflexivity].
    apply columns_pattern in E. now apply H in E.
  - intros g1 g2 g3 H. apply columns_pattern in H. rewrite H, Hn. simpl.
    destruct (YUM.two_or _ _) as [pkg arch]. now exists pkg.
Qed.

Lemma apk_names_only self package :
  _need_package_details self = false ->
  exists name,
    APK.get_package_details self package = Ok {[ "name" := VStr name ]}.
Proof.
  intros Hn. unfold APK.get_package_details.
  destruct (split_cons " " None package) as (h & t & ->). simpl.
  destruct (rsplit_cons "-" (Some 2) h) as (n & l & ->). simpl.
  rewrite Hn. now exists n.
Qed.

(** C3, as amended: when [need_package_details] is false, the rpm, apt
    and apk parsers return a record with the name field only (apt in
    all-available mode too), and the yum parser returns the name field
    only for a line of three columns and the empty record for any other
    line. *)
Theorem names_only_without_details self :
  _need_package_details self = false ->
  (forall package,
     RPM.get_package_details self package =
     {[ "name" := package RPM.RPMTAG_NAME ]})
  /\ (forall pkg_cache package,
       APT.get_package_details self pkg_cache package =
       Ok {[ "name" := VStr package ]})
  /\ (forall package, exists name,
       APK.get_package_details self package = Ok {[ "name" := VStr name ]})
  /\ (forall package,
       ((forall g1 g2 g3, ~ yum_pattern package g1 g2 g3) ->
        YUM.get_package_details self package = ∅)
       /\ (forall g1 g2 g3, yum_pattern package g1 g2 g3 ->
           exists name,
             YUM.get_package_details self package =
             {[ "name" := VStr name ]})).
Proof.
  intros Hn. split; [|split; [|split]].
  - intros package. unfold RPM.get_package_details. now rewrite Hn.
  - intros pkg_cache package. unfold APT.get_package_details.
    now rewrite Hn.
  - intros package. now apply apk_names_only.
  - intros package. now apply yum_names_only.
Qed.

Lemma names_only_without_details_witness :
  APT.get_package_details (Manager false true) one_package_cache "foo" =
  Ok {[ "name" := VStr "foo" ]}.
Proof.
  apply (names_only_without_details (Manager false true)). reflexivity.
Defined.

(** C3, as stated, fails: without details asked for, apt in
    all-available mode returns the name only, with no [is_installed]
    field. *)
Lemma apt_all_available_without_details :
  APT.get_package_details (Manager false true) one_package_cache "foo" =
  Ok {[ "name" := VStr "foo" ]}
  /\ forall b,
      APT.get_package_details (Manager false true) one_package_cache "foo"
      <> Ok (<["is_installed" := VBool b]> {[ "name" := VStr "foo" ]}).
Proof.
  split; [reflexivity|]. intros b H.
  assert (E : forall x y : record,
             Ok x = Ok y -> x !! "is_installed" = y !! "is_installed")
    by (intros x y [= ->]; reflexivity).
  apply E in H. vm_compute in H. discriminate H.
Qed.



End ParserFacts.

(** ** The availability probes *)

Section ProbeFacts.

Implicit Types (self : PkgMgr) (e : env).

Lemma rpm_respawns_only_once self e interpreter_path :
  probe_ending (RPM.is_available self e) = Respawns interpreter_path ->
  has_respawned e = false /\ lib_importable e RPM.LIB = false.
Proof.
  unfold RPM.is_available.
  destruct (_all_available self); [discriminate|].
  destruct (get_bin_path e "rpm"); [|discriminate].
  destruct (lib_importable e RPM.LIB), (has_respawned e); simpl;
    try discriminate.
  now intros _.
Qed.

Lemma apt_look_for_respawns e exes interpreter_path :
  probe_ending (APT.look_for e exes) = Respawns interpreter_path ->
  has_respawned e = false.
Proof.
  induction exes as [|exe rest IH]; simpl; [discriminate|].
  destruct (get_bin_path e exe); [|exact IH].
  destruct (has_respawned e); simpl; [discriminate | reflexivity].
Qed.

Lemma apt_respawns_only_once self e interpreter_path :
  probe_ending (APT.is_available self e) = Respawns interpreter_path ->
  has_respawned e = false /\ lib_importable e APT.LIB = false.
Proof.
  unfold APT.is_available.
  destruct (lib_importable e APT.LIB); cbn [negb]; [discriminate|].
  intros H. split; [|reflexivity]. eapply apt_look_for_respawns, H.
Qed.

(** In a respawned process the rpm probe returns whether the binding
    imports. *)
Lemma rpm_after_respawn self e :
  has_respawned e = true ->
  probe_ending (RPM.is_available self e) =
  Returns (negb (_all_available self) && lib_importable e RPM.LIB).
Proof.
  intros H. unfold RPM.is_available. rewrite H.
  destruct (_all_available self); [reflexivity|].
  destruct (get_bin_path e "rpm"); [|reflexivity].
  rewrite andb_false_r.
  now destruct (lib_importable e RPM.LIB).
Qed.

Lemma apt_look_for_after_respawn e exes :
  has_respawned e = true ->
  probe_ending (APT.look_for e exes) = Returns false.
Proof.
  intros H. induction exes as [|exe rest IH]; simpl; [reflexivity|].
  destruct (get_bin_path e exe); [|exact IH]. now rewrite H.
Qed.

Lemma apt_after_respawn self e :
  has_respawned e = true ->
  probe_ending (APT.is_available self e) =
  Returns (lib_importable e APT.LIB).
Proof.
  intros H. unfold APT.is_available.
  destruct (lib_importable e APT.LIB); cbn [negb]; [reflexivity|].
  now apply apt_look_for_after_respawn.
Qed.

End ProbeFacts.

(** ** The selection *)

Section ListFacts.

Implicit Types (x y : string) (l : list string).

Lemma elem_spec x l : elem x l = true <-> x ∈ l.
Proof.
  unfold elem. rewrite existsb_exists. split.
  - intros (y & Hy & E). apply String.eqb_eq in E. subst y.
    now apply list_elem_of_In.
  - intros H. exists x. split; [now apply list_elem_of_In|].
    apply String.eqb_refl.
Qed.

Lemma elem_false x l : elem x l = false <-> x ∉ l.
Proof.
  rewrite <- elem_spec. now destruct (elem x l).
Qed.

Lemma remove_first_other x y l :
  x <> y -> x ∈ l -> x ∈ remove_first y l.
Proof.
  intros Hne. induction l as [|z l IH]; simpl; [easy|].
  intros H. destruct (String.eqb_spec y z) as [->|Hz].
  - apply elem_of_cons in H as [->|H]; [easy | exact H].
  - apply elem_of_cons in H as [->|H]; [left | right; auto].
Qed.

Lemma remove_first_subset x y l : x ∈ remove_first y l -> x ∈ l.
Proof.
  induction l as [|z l IH]; simpl; [easy|].
  destruct (String.eqb_spec y z) as [->|Hz]; intros H.
  - now right.
  - apply elem_of_cons in H as [->|H]; [left | right; auto].
Qed.

Lemma remove_first_perm y l : y ∈ l -> y :: remove_first y l ≡ₚ l.
Proof.
  induction l as [|z l IH]; simpl; intros H; [now apply elem_of_nil in H|].
  destruct (String.eqb_spec y z) as [->|Hz]; [reflexivity|].
  apply elem_of_cons in H as [->|H]; [easy|].
  rewrite Permutation_swap. now rewrite (IH H).
Qed.

(** The two cases of the prioritization. *)
Lemma prioritize_cases (auto : bool) (strat : strategy_t) l :
  (auto = true -> strat = first -> "rpm" ∈ l -> "yum" ∈ l ->
     prioritize auto strat l = "rpm" :: remove_first "rpm" l
     /\ "yum" ∈ remove_first "rpm" l
     /\ prioritize auto strat l ≡ₚ l)
  /\ (auto = false \/ strat = all \/ "rpm" ∉ l \/ "yum" ∉ l ->
      prioritize auto strat l = l).
Proof.
  unfold prioritize. split.
  - intros -> -> Hr Hy.
    rewrite (proj2 (elem_spec "rpm" l) Hr), (proj2 (elem_spec "yum" l) Hy).
    simpl. split; [reflexivity|]. split.
    + now apply remove_first_other.
    + now apply remove_first_perm.
  - intros [-> | [-> | [H | H]]].
    + reflexivity.
    + now rewrite andb_false_r.
    + apply elem_false in H. rewrite H. now rewrite andb_false_r.
    + apply elem_false in H. rewrite H. now rewrite !andb_false_r.
Qed.

End ListFacts.

Section SelectionFacts.

Context {world : Type}.
Variable package_manager_names : list string.
Variable set_order : gset string -> list string.
Variable is_available : string -> PkgMgr -> world -> probe * world.
Variable get_packages :
  string -> PkgMgr -> world -> (string + catalog) * world.

Local Open Scope list_scope.

Local Abbreviation attempt_of := (attempt is_available get_packages).
Local Abbreviation iterate_of := (iterate is_available get_packages).
Local Abbreviation run_main :=
  (main package_manager_names set_order is_available get_packages).

Implicit Types (p : params) (st : @state world) (pkgmgr : string).

(** What one attempt adds to the state. *)
Lemma attempt_shape p pkgmgr st :
  let st' := (attempt_of p pkgmgr st).1 in
  seen st' = {[ pkgmgr ]} ∪ seen st
  /\ ((events st' = events st ++ [Probed pkgmgr]
       /\ found st' = found st)
      \/ (events st' = events st ++ [Probed pkgmgr; Listed pkgmgr]
          /\ found st' = S (found st))).
Proof.
  unfold attempt.
  destruct (is_available _ _ _) as [pr w].
  destruct (probe_ending pr) as [[|]|exc|path]; simpl.
  - destruct (get_packages _ _ _) as [[exc|pkgs] w']; simpl;
      (split; [reflexivity|]); right; now rewrite <- app_assoc.
  - split; [reflexivity|]. now left.
  - split; [reflexivity|]. now left.
  - split; [reflexivity|]. now left.
Qed.

Lemma filter_listed_app (l1 l2 : list event) :
  List.filter is_listed (l1 ++ l2)
  = List.filter is_listed l1 ++ List.filter is_listed l2.
Proof. apply List.filter_app. Qed.

Lemma attempt_consistent p pkgmgr st :
  pkgmgr ∉ seen st -> consistent st -> consistent (attempt_of p pkgmgr st).1.
Proof.
  intros Hfresh (Hnd & Htags & Hfound).
  destruct (attempt_shape p pkgmgr st) as (Hs & He).
  assert (Hpr : Probed pkgmgr ∉ events st)
    by (intros H; apply Htags in H; contradiction).
  assert (Hli : Listed pkgmgr ∉ events st)
    by (intros H; apply Htags in H; contradiction).
  unfold consistent. rewrite Hs.
  destruct He as [[-> ->] | [-> ->]].
  - split; [|split].
    + apply NoDup_app. split; [exact Hnd|]. split.
      * intros ev Hev Hin. apply list_elem_of_singleton in Hin. now subst ev.
      * apply NoDup_singleton.
    + intros ev Hev. apply elem_of_app in Hev as [Hev | Hev].
      * apply elem_of_union_r. now apply Htags.
      * apply list_elem_of_singleton in Hev. subst ev.
        apply elem_of_union_l. now apply elem_of_singleton.
    + rewrite filter_listed_app. simpl. rewrite length_app. simpl. lia.
  - split; [|split].
    + apply NoDup_app. split; [exact Hnd|]. split.
      * intros ev Hev Hin.
        apply elem_of_cons in Hin as [-> | Hin]; [contradiction|].
        apply list_elem_of_singleton in Hin. now subst ev.
      * apply NoDup_cons. split; [|apply NoDup_singleton].
        intros Hin. apply list_elem_of_singleton in Hin. discriminate Hin.
    + intros ev Hev. apply elem_of_app in Hev as [Hev | Hev].
      * apply elem_of_union_r. now apply Htags.
      * apply elem_of_union_l, elem_of_singleton.
        apply elem_of_cons in Hev as [-> | Hev]; [reflexivity|].
        apply list_elem_of_singleton in Hev. now subst ev.
    + rewrite filter_listed_app. simpl. rewrite length_app. simpl. lia.
Qed.

Lemma iterate_consistent p (managers : list string) :
  forall st, consistent st -> consistent (iterate_of p managers st).1.
Proof.
  induction managers as [|pkgmgr rest IH]; intros st Hst; simpl.
  - exact Hst.
  - destruct ((0 <? found st)%nat && is_first (strategy p)); [exact Hst|].
    case_bool_decide as Hseen; [now apply IH|].
    pose proof (attempt_consistent p pkgmgr st Hseen Hst) as Hst'.
    destruct (attempt_of p pkgmgr st) as [st' [path|]]; simpl in *.
    + exact Hst'.
    + now apply IH.
Qed.

Lemma initial_consistent (w : world) :
  consistent (State 0 ∅ ∅ [] [] w).
Proof.
  split; [apply NoDup_nil_2|]. split; [|reflexivity].
  intros ev Hev. now apply elem_of_nil in Hev.
Qed.

(** The events of a run are those of a consistent state, and a run
    that fails has found no backend. *)
Lemma main_events p (w : world) :
  exists st,
    consistent st /\ run_events (run_main p w) = events st
    /\ (forall msg, run_outcome (run_main p w) = fail_json msg -> found st = 0).
Proof.
  unfold main.
  destruct (negb (bool_decide (_ = ∅))).
  - exists (State 0 ∅ ∅ [] [] w). split; [apply initial_consistent|].
    now split.
  - pose proof (iterate_consistent p
      (prioritize (elem "auto" (Py.lower <$> manager p)) (strategy p)
         (expand package_manager_names (Py.lower <$> manager p)))
      _ (initial_consistent w)) as Hc.
    destruct (iterate_of p _ _) as [st [path|]]; simpl in Hc.
    + exists st. simpl. split; [exact Hc|]. split; [reflexivity|].
      discriminate.
    + exists st. destruct (found st =? 0)%nat eqn:E; simpl.
      * split; [exact Hc|]. split; [reflexivity|]. intros _ _.
        now apply Nat.eqb_eq.
      * split; [exact Hc|]. split; [reflexivity|]. discriminate.
Qed.

(** C6: within one run each backend tag is attempted at most once,
    whatever the requested list (duplicates included): no call of
    [is_available] or of the listing appears twice among the events
    of a run. *)
Theorem each_backend_once p (w : world) :
  NoDup (run_events
           (main package_manager_names set_order is_available get_packages
              p w)).
Proof.
  destruct (main_events p w) as (st & (Hnd & _) & -> & _). exact Hnd.
Qed.

Lemma attempt_probe_raises p pkgmgr st exc :
  probe_ending (is_available pkgmgr
                  (Manager (need_package_details p) (all_available p))
                  (host st)).1 = Raises exc ->
  exists st',
    attempt_of p pkgmgr st = (st', None)
    /\ found st' = found st /\ packages st' = packages st
    /\ warnings st' =
       warn_requested p pkgmgr exc
         (warnings st ++
          probe_warnings
            (is_available pkgmgr
               (Manager (need_package_details p) (all_available p))
               (host st)).1).
Proof.
  unfold attempt. destruct (is_available _ _ _) as [pr w]. simpl.
  intros ->. eexists. split; [reflexivity|]. now simpl.
Qed.

Lemma attempt_listing_raises p pkgmgr st exc :
  let self := Manager (need_package_details p) (all_available p) in
  let r := is_available pkgmgr self (host st) in
  probe_ending r.1 = Returns true ->
  (get_packages pkgmgr self r.2).1 = inl exc ->
  exists st',
    attempt_of p pkgmgr st = (st', None)
    /\ found st' = S (found st) /\ packages st' = packages st
    /\ warnings st' =
       warn_requested p pkgmgr exc (warnings st ++ probe_warnings r.1).
Proof.
  unfold attempt. destruct (is_available _ _ _) as [pr w]. simpl.
  intros ->. destruct (get_packages _ _ _) as [r w']. simpl.
  intros ->. eexists. split; [reflexivity|]. now simpl.
Qed.

Lemma iterate_stops p (managers : list string) st :
  strategy p = first -> (0 < found st)%nat ->
  iterate_of p managers st = (st, None).
Proof.
  intros Hs Hf. destruct managers as [|pkgmgr rest]; [reflexivity|].
  simpl. rewrite Hs. simpl.
  now rewrite (proj2 (Nat.ltb_lt 0 (found st)) Hf).
Qed.

(** C7, as amended: an error raised while a backend is built or
    probed, or while it lists its packages, is caught in the loop: it
    adds a warning when the tag is in the requested list and none
    otherwise, leaves the catalog as it was, and the loop goes on with
    the candidates that follow.  After an error of the listing the
    backend stays counted as found, so under the [first] strategy the
    loop then stops without attempting another candidate.  The run
    fails only when no backend was found (no listing was called). *)
Theorem errors_are_caught p pkgmgr (rest : list string) st (w0 : world) :
  pkgmgr ∉ seen st ->
  (0 <? found st)%nat && is_first (strategy p) = false ->
  let self := Manager (need_package_details p) (all_available p) in
  let r := is_available pkgmgr self (host st) in
  let warned exc ws :=
    if elem pkgmgr (manager p) then ws ++ [msg_not_usable pkgmgr exc]
    else ws in
  (forall exc, probe_ending r.1 = Raises exc ->
     exists st',
       iterate_of p (pkgmgr :: rest) st = iterate_of p rest st'
       /\ found st' = found st /\ packages st' = packages st
       /\ warnings st' = warned exc (warnings st ++ probe_warnings r.1))
  /\ (forall exc, probe_ending r.1 = Returns true ->
       (get_packages pkgmgr self r.2).1 = inl exc ->
       exists st',
         iterate_of p (pkgmgr :: rest) st = iterate_of p rest st'
         /\ found st' = S (found st) /\ packages st' = packages st
         /\ warnings st' = warned exc (warnings st ++ probe_warnings r.1)
         /\ (strategy p = first -> iterate_of p rest st' = (st', None)))
  /\ (forall msg, run_outcome (run_main p w0) = fail_json msg ->
       forall t, Listed t ∉ run_events (run_main p w0)).
Proof.
  intros Hfresh Hgo self r warned. split; [|split].
  - intros exc Hr.
    destruct (attempt_probe_raises p pkgmgr st exc Hr)
      as (st' & Ha & Hf & Hp & Hw).
    exists st'. simpl. rewrite Hgo, bool_decide_eq_false_2 by exact Hfresh.
    now rewrite Ha.
  - intros exc Hr Hl.
    destruct (attempt_listing_raises p pkgmgr st exc Hr Hl)
      as (st' & Ha & Hf & Hp & Hw).
    exists st'. simpl. rewrite Hgo, bool_decide_eq_false_2 by exact Hfresh.
    rewrite Ha. repeat split; try assumption.
    intros Hs. apply iterate_stops; [exact Hs | lia].
  - intros msg Hfail t Hin.
    destruct (main_events p w0) as (st0 & (_ & _ & Hcount) & He & Hf).
    rewrite He in Hin. rewrite (Hf msg Hfail) in Hcount.
    assert (Hl : Listed t ∈ List.filter is_listed (events st0)).
    { apply list_elem_of_In, List.filter_In. split; [|reflexivity].
      now apply list_elem_of_In. }
    destruct (List.filter is_listed (events st0)); [|discriminate Hcount].
    now apply elem_of_nil in Hl.
Qed.

Lemma attempt_events p pkgmgr st :
  exists evs,
    events (attempt_of p pkgmgr st).1 = events st ++ Probed pkgmgr :: evs.
Proof.
  destruct (attempt_shape p pkgmgr st) as (_ & [[-> _] | [-> _]]); eauto.
Qed.

Lemma iterate_events p (managers : list string) :
  forall st, exists evs, events (iterate_of p managers st).1 = events st ++ evs.
Proof.
  induction managers as [|pkgmgr rest IH]; intros st; simpl.
  - exists []. now rewrite app_nil_r.
  - destruct ((0 <? found st)%nat && is_first (strategy p));
      [exists []; now rewrite app_nil_r|].
    case_bool_decide; [apply IH|].
    destruct (attempt_events p pkgmgr st) as (evs & He).
    destruct (attempt_of p pkgmgr st) as [st' [path|]]; simpl in *.
    + eauto.
    + destruct (IH st') as (evs' & ->). rewrite He, <- app_assoc. eauto.
Qed.

(** C4: with [auto], the [first] strategy and both [rpm] and [yum]
    among the candidates, the order is rewritten to [rpm] followed by
    the candidates without their first [rpm]: the candidates are the
    same, [rpm] is at the head and [yum] after it, and in a run [rpm] is
    the first backend attempted; in every other configuration (no
    [auto], the [all] strategy, or one of the two tags missing) the
    order is left as it is. *)
Theorem rpm_before_yum p (w : world) (auto : bool) (strat : strategy_t)
    (l : list string) :
  (auto = true -> strat = first -> "rpm" ∈ l -> "yum" ∈ l ->
     prioritize auto strat l = "rpm" :: remove_first "rpm" l
     /\ "yum" ∈ remove_first "rpm" l
     /\ prioritize auto strat l ≡ₚ l)
  /\ (auto = false \/ strat = all \/ "rpm" ∉ l \/ "yum" ∉ l ->
      prioritize auto strat l = l)
  /\ (let managers :=
        expand package_manager_names (Py.lower <$> manager p) in
      "auto" ∈ Py.lower <$> manager p -> strategy p = first ->
      "rpm" ∈ managers -> "yum" ∈ managers ->
      managers ⊆ package_manager_names ->
      exists evs,
        run_events
          (main package_manager_names set_order is_available get_packages
             p w)
        = Probed "rpm" :: evs).
Proof.
  destruct (prioritize_cases auto strat l) as [H1 H2].
  split; [exact H1|]. split; [exact H2|].
  intros managers Ha Hs Hr Hy Hsub. unfold main. fold managers.
  rewrite bool_decide_eq_true_2.
  - apply elem_spec in Ha. rewrite Ha, Hs.
    destruct (prioritize_cases true first managers) as [[-> _] _];
      try easy.
    simpl iterate. rewrite bool_decide_eq_false_2 by apply not_elem_of_empty.
    destruct (attempt_events p "rpm" (State 0 ∅ ∅ [] [] w)) as (evs & He).
    destruct (attempt_of p "rpm" _) as [st' [path|]]; simpl in He.
    + simpl. eauto.
    + destruct (iterate_events p (remove_first "rpm" managers) st')
        as (evs' & Hi).
      destruct (iterate_of p _ st') as [st'' o]. simpl in Hi.
      rewrite He in Hi. simpl in Hi.
      destruct o; simpl; [eauto|].
      destruct (found st'' =? 0)%nat; simpl; eauto.
  - apply set_eq. intros x.
    rewrite elem_of_difference, !elem_of_list_to_set.
    split; [|now intros H%not_elem_of_empty].
    intros [Hx Hn]. destruct Hn. now apply Hsub.
Qed.

(** The order of a set of tags lists the members of the set. *)
Hypothesis set_order_perm : forall s, set_order s ≡ₚ elements s.

(** C8: a requested tag that is neither [auto] nor a known tag makes
    the run fail before any backend is attempted (no event, no
    warning); the message lists the unsupported tags when [auto] is
    not in the requested list, and is the could-not-auto-detect
    message when it is. *)
Theorem unsupported_manager_fails p (w : world) (t : string) :
  t ∈ Py.lower <$> manager p -> t <> "auto" ->
  t ∉ package_manager_names ->
  let managers := expand package_manager_names (Py.lower <$> manager p) in
  let unsupported : gset string :=
    list_to_set managers ∖ list_to_set package_manager_names in
  run_main p w =
    Run (fail_json (if elem "auto" (manager p) then msg_auto_detect
                    else msg_unsupported (set_order unsupported))) [] []
  /\ t ∈ set_order unsupported
  /\ (forall u, u ∈ set_order unsupported <->
                u ∈ managers /\ u ∉ package_manager_names).
Proof.
  intros Ht Hauto Hnew managers unsupported.
  assert (Hmem : forall u, u ∈ set_order unsupported <->
                           u ∈ managers /\ u ∉ package_manager_names).
  { intros u. rewrite (set_order_perm unsupported), elem_of_elements.
    unfold unsupported.
    now rewrite elem_of_difference, !elem_of_list_to_set. }
  assert (Hin : t ∈ managers).
  { unfold managers, expand. destruct (elem "auto" _); [|exact Ht].
    apply remove_first_other; [exact Hauto|].
    apply elem_of_app. now left. }
  assert (Hne : unsupported <> ∅).
  { intros E. assert (H : t ∈ unsupported).
    { unfold unsupported.
      now rewrite elem_of_difference, !elem_of_list_to_set. }
    rewrite E in H. now apply not_elem_of_empty in H. }
  split; [|split].
  - unfold main. fold managers. fold unsupported.
    now rewrite bool_decide_eq_false_2 by exact Hne.
  - apply Hmem. now split.
  - exact Hmem.
Qed.

End SelectionFacts.

Section SelectionExamples.

Local Open Scope list_scope.

Lemma errors_are_caught_witness :
  exists st',
    iterate every_backend_available rpm_listing_raises requested
      ["rpm"; "apt"] (State 0 ∅ ∅ [] [] tt)
    = iterate every_backend_available rpm_listing_raises requested
        ["apt"] st'
    /\ found st' = 1 /\ packages st' = ∅
    /\ warnings st' = [msg_not_usable "rpm" "boom"]
    /\ (strategy requested = first ->
        iterate every_backend_available rpm_listing_raises requested
          ["apt"] st' = (st', None)).
Proof.
  apply (errors_are_caught ["rpm"; "apt"] elements
           every_backend_available rpm_listing_raises
           requested "rpm" ["apt"] (State 0 ∅ ∅ [] [] tt) tt);
    first [reflexivity | apply not_elem_of_empty].
Defined.

(** C7, as stated, fails: with the [first] strategy and the request
    [rpm, apt], when [rpm] is available and its listing raises, the
    error is caught and warned about, but the iteration does not
    continue: [apt], available too, is never attempted, and the run
    ends well with an empty catalog. *)
Lemma listing_error_ends_first_strategy :
  let r := main ["rpm"; "apt"] elements every_backend_available
                rpm_listing_raises requested tt in
  run_events r = [Probed "rpm"; Listed "rpm"]
  /\ (Probed "apt" ∉ run_events r)
  /\ run_outcome r = exit_json "packages" ∅
  /\ run_warnings r = [msg_not_usable "rpm" "boom"].
Proof.
  assert (E : run_events (main ["rpm"; "apt"] elements
                every_backend_available rpm_listing_raises requested tt)
              = [Probed "rpm"; Listed "rpm"]) by (vm_compute; reflexivity).
  cbv zeta. rewrite E. split; [reflexivity|]. split.
  - intros H. apply elem_of_cons in H as [H | H]; [discriminate H|].
    apply elem_of_cons in H as [H | H]; [discriminate H|].
    now apply elem_of_nil in H.
  - split; vm_compute; reflexivity.
Qed.

(** The request [apt, apt, rpm] under the [all] strategy attempts [apt]
    once. *)
Example duplicate_request_attempted_once :
  run_events
    (main ["apt"; "rpm"] elements every_backend_available rpm_listing_raises
          (Params ["apt"; "apt"; "rpm"] all false true) tt)
  = [Probed "apt"; Listed "apt"; Probed "rpm"; Listed "rpm"].
Proof. vm_compute. reflexivity. Qed.

(** With [auto] expanded on a host that knows [yum] then [rpm], the
    first backend attempted is [rpm]. *)
Lemma rpm_before_yum_witness :
  prioritize true first ["yum"; "rpm"] = ["rpm"; "yum"]
  /\ prioritize true all ["yum"; "rpm"] = ["yum"; "rpm"]
  /\ exists evs,
       run_events
         (main ["yum"; "rpm"] elements every_backend_available
               rpm_listing_raises (Params ["auto"] first false true) tt)
       = Probed "rpm" :: evs.
Proof.
  pose proof (rpm_before_yum ["yum"; "rpm"] elements
                every_backend_available rpm_listing_raises
                (Params ["auto"] first false true) tt) as H.
  split; [|split].
  - apply (H true first ["yum"; "rpm"]);
      first [reflexivity | apply elem_spec; reflexivity].
  - apply (H true all ["yum"; "rpm"]). right. now left.
  - apply (H true first []);
      first [reflexivity | apply elem_spec; reflexivity].
Defined.

Lemma unsupported_manager_fails_witness :
  main ["rpm"; "apt"] elements every_backend_available rpm_listing_raises
       (Params ["zypper"] first false true) tt
  = Run (fail_json "Unsupported package managers requested: zypper") [] [].
Proof.
  refine (eq_trans
    (proj1 (unsupported_manager_fails ["rpm"; "apt"] elements
              every_backend_available rpm_listing_raises
              (fun s => reflexivity _)
              (Params ["zypper"] first false true) tt "zypper" _ _ _)) _).
  - apply list_elem_of_singleton. reflexivity.
  - discriminate.
  - intros H. apply elem_of_cons in H as [H | H]; [discriminate H|].
    apply elem_of_cons in H as [H | H]; [discriminate H|].
    now apply elem_of_nil in H.
  - vm_compute. reflexivity.
Defined.

End SelectionExamples.

(** ** The process tree *)

Section ProcessTreeFacts.

Variable package_manager_names : list string.
Variable set_order : gset string -> list string.
Variable cli_is_available : string -> PkgMgr -> env -> probe.
Variable get_packages : string -> PkgMgr -> env -> string + catalog.
Variable under : string -> env.

(** Only the two backends with a binding respawn. *)
Hypothesis cli_never_respawns :
  forall pkgmgr self e interpreter_path,
    probe_ending (cli_is_available pkgmgr self e)
    <> Respawns interpreter_path.

Local Abbreviation probe_of := (backend_is_available cli_is_available).
Local Abbreviation listing_of := (backend_get_packages get_packages).
Local Abbreviation run_main :=
  (main package_manager_names set_order probe_of listing_of).
Local Abbreviation tree :=
  (process_tree package_manager_names set_order cli_is_available
     get_packages under).

Implicit Types (p : params) (e : env) (st : @state env).

Lemma backend_keeps_host pkgmgr self e : (probe_of pkgmgr self e).2 = e.
Proof.
  unfold backend_is_available.
  now destruct (String.eqb pkgmgr "rpm"), (String.eqb pkgmgr "apt").
Qed.

Lemma backend_after_respawn pkgmgr self e interpreter_path :
  has_respawned e = true ->
  probe_ending (probe_of pkgmgr self e).1 <> Respawns interpreter_path.
Proof.
  intros He H. unfold backend_is_available in H.
  destruct (String.eqb pkgmgr "rpm").
  - apply rpm_respawns_only_once in H as [H _]. congruence.
  - destruct (String.eqb pkgmgr "apt").
    + simpl in H. apply apt_respawns_only_once in H as [H _]. congruence.
    + simpl in H. now apply cli_never_respawns in H.
Qed.

Lemma attempt_after_respawn p pkgmgr st :
  has_respawned (host st) = true ->
  (attempt probe_of listing_of p pkgmgr st).2 = None
  /\ host (attempt probe_of listing_of p pkgmgr st).1 = host st.
Proof.
  intros He. unfold attempt.
  pose proof (backend_keeps_host pkgmgr
    (Manager (need_package_details p) (all_available p)) (host st)) as Hw.
  pose proof (fun path => backend_after_respawn pkgmgr
    (Manager (need_package_details p) (all_available p)) (host st)
    path He) as Hr.
  destruct (probe_of _ _ _) as [pr w]. simpl in Hw, Hr. subst w.
  destruct (probe_ending pr) as [[|]|exc|path]; simpl; try easy.
  - unfold backend_get_packages. now destruct (get_packages _ _ _).
  - now destruct (Hr path).
Qed.

Lemma iterate_after_respawn p (managers : list string) :
  forall st, has_respawned (host st) = true ->
    (iterate probe_of listing_of p managers st).2 = None.
Proof.
  induction managers as [|pkgmgr rest IH]; intros st He; simpl.
  - reflexivity.
  - destruct ((0 <? found st)%nat && is_first (strategy p)); [reflexivity|].
    case_bool_decide; [now apply IH|].
    destruct (attempt_after_respawn p pkgmgr st He) as [Hn Hh].
    destruct (attempt _ _ _ _ _) as [st' o]. simpl in Hn, Hh. subst o.
    apply IH. now rewrite Hh.
Qed.

(** A respawned run does not respawn. *)
Lemma main_after_respawn p e :
  has_respawned e = true -> is_respawned (run_main p e) = false.
Proof.
  intros He. unfold is_respawned, main.
  destruct (negb (bool_decide (_ = ∅))); [reflexivity|].
  pose proof (iterate_after_respawn p
    (prioritize (elem "auto" (Py.lower <$> manager p)) (strategy p)
       (expand package_manager_names (Py.lower <$> manager p)))
    (State 0 ∅ ∅ [] [] e) He) as Hn.
  destruct (iterate _ _ _ _ _) as [st o]. simpl in Hn. subst o.
  now destruct (found st =? 0)%nat.
Qed.

Lemma copy_tree (g : nat) p interpreter_path :
  tree (S g) p (respawn_module under interpreter_path)
  = [run_main p (respawn_module under interpreter_path)].
Proof.
  simpl.
  pose proof (main_after_respawn p (respawn_module under interpreter_path)
                eq_refl) as H.
  unfold is_respawned in H.
  now destruct (run_outcome _).
Qed.

Lemma tree_two_generations (g : nat) p e :
  tree (S (S g)) p e = tree 2 p e.
Proof.
  change (tree (S (S g)) p e) with
    (run_main p e ::
     match run_outcome (run_main p e) with
     | respawned path => tree (S g) p (respawn_module under path)
     | _ => []
     end).
  change (tree 2 p e) with
    (run_main p e ::
     match run_outcome (run_main p e) with
     | respawned path => tree 1 p (respawn_module under path)
     | _ => []
     end).
  destruct (run_outcome (run_main p e)); try reflexivity.
  now rewrite !copy_tree.
Qed.

Lemma tree_respawns_once (g : nat) p e :
  List.length (List.filter is_respawned (tree g p e)) <= 1.
Proof.
  destruct g as [|g]; [simpl; lia|].
  change (tree (S g) p e) with
    (run_main p e ::
     match run_outcome (run_main p e) with
     | respawned path => tree g p (respawn_module under path)
     | _ => []
     end).
  assert (Hcopy : forall path,
    List.filter is_respawned (tree g p (respawn_module under path)) = []).
  { intros path. destruct g as [|g]; [reflexivity|].
    rewrite copy_tree. simpl.
    now rewrite (main_after_respawn p (respawn_module under path) eq_refl). }
  simpl List.filter.
  destruct (is_respawned (run_main p e));
    destruct (run_outcome (run_main p e)); simpl; rewrite ?Hcopy; simpl; lia.
Qed.

(** C9: [respawn_module] is called only when [has_respawned()] is
    false, in the rpm probe and in the apt probe; a process that is a
    respawned copy does not respawn: its probes return, and return
    false when the binding does not import; so the tree of one
    invocation holds at most one respawn, and is complete after two
    generations. *)
Theorem respawn_at_most_once self p e :
  (forall path, probe_ending (RPM.is_available self e) = Respawns path ->
     has_respawned e = false)
  /\ (forall path, probe_ending (APT.is_available self e) = Respawns path ->
       has_respawned e = false)
  /\ (has_respawned e = true ->
      probe_ending (RPM.is_available self e)
      = Returns (negb (_all_available self) && lib_importable e RPM.LIB)
      /\ probe_ending (APT.is_available self e)
         = Returns (lib_importable e APT.LIB)
      /\ (lib_importable e RPM.LIB = false ->
          probe_ending (RPM.is_available self e) = Returns false)
      /\ (lib_importable e APT.LIB = false ->
          probe_ending (APT.is_available self e) = Returns false))
  /\ (forall g : nat,
        List.length (List.filter is_respawned (tree g p e)) <= 1
        /\ tree (S (S g)) p e = tree 2 p e).
Proof.
  split; [|split; [|split]].
  - intros path H. now apply rpm_respawns_only_once in H.
  - intros path H. now apply apt_respawns_only_once in H.
  - intros He. split; [now apply rpm_after_respawn|].
    split; [now apply apt_after_respawn|]. split; intros Hl.
    + rewrite (rpm_after_respawn self e He), Hl. now rewrite andb_false_r.
    + now rewrite (apt_after_respawn self e He), Hl.
  - intros g. split; [apply tree_respawns_once | apply tree_two_generations].
Qed.

End ProcessTreeFacts.

Section ProcessTreeExamples.

Local Abbreviation example_tree :=
  (process_tree ["rpm"] elements program_found no_packages
     (fun _ => host_with_binding)).

(** On a host with the rpm program and no binding, the run respawns
    under the platform interpreter and the copy lists the packages. *)
Example tree_of_host_without_binding :
  example_tree 3 (Params ["auto"] first false true) host_without_binding
  = [ Run (respawned "/usr/libexec/platform-python") [] [Probed "rpm"];
      Run (exit_json "packages" ∅) [] [Probed "rpm"; Listed "rpm"] ].
Proof. vm_compute. reflexivity. Qed.

Lemma respawn_at_most_once_witness :
  List.length
    (List.filter is_respawned
       (example_tree 3 (Params ["auto"] first false true)
          host_without_binding)) <= 1.
Proof.
  apply (respawn_at_most_once ["rpm"] elements program_found no_packages
           (fun _ => host_with_binding)
           (fun pkgmgr self e path H =>
              eq_ind (Returns (bool_decide (is_Some (get_bin_path e pkgmgr))))
                (fun x => match x with Respawns _ => False | _ => True end)
                I _ H)
           (Manager true false) (Params ["auto"] first false true)
           host_without_binding).
Defined.

End ProcessTreeExamples.

(** ** Parse failures of pacman *)

Section PacmanFailure.

Context {world : Type}.
Variable is_available : string -> PkgMgr -> world -> probe * world.
Variable get_packages :
  string -> PkgMgr -> world -> (string + catalog) * world.


End PacmanFailure.


(** * Further properties *)

(** ** More on text *)

Section MoreTextFacts.

Implicit Types (s a b : string) (c : ascii).

(** A text holds [c] or not; when it does, it is cut at the first one. *)
Lemma first_occurrence c s :
  Py.mem c s = false
  \/ exists a b, s = a ++ String c b /\ Py.mem c a = false.
Proof.
  induction s as [|x s IH]; [now left|].
  simpl. destruct (Ascii.eqb_spec c x) as [<- | Hx].
  - right. now exists "", s.
  - destruct IH as [H | (a & b & -> & Ha)]; [now left|].
    right. exists (String x a), b. split; [reflexivity|].
    simpl. rewrite Ha. now apply Ascii.eqb_neq in Hx as ->.
Qed.

(** And at the last one. *)
Lemma last_occurrence c s :
  Py.mem c s = false
  \/ exists a b, s = a ++ String c b /\ Py.mem c b = false.
Proof.
  destruct (first_occurrence c (Py.rev s)) as [H | (a & b & E & Ha)].
  - left. now rewrite mem_rev in H.
  - right. exists (Py.rev b), (Py.rev a).
    split; [|now rewrite mem_rev].
    rewrite <- (rev_involutive s), E, rev_app, rev_cons, append_assoc.
    reflexivity.
Qed.

(** With splits left, the first piece ends at the first separator. *)
Lemma split_cut c (n : nat) a b :
  Py.mem c a = false ->
  Py.split c (Some (S n)) (a ++ String c b) = a :: Py.split c (Some n) b.
Proof.
  induction a as [|x a IH]; intros H; simpl.
  - now rewrite Ascii.eqb_refl.
  - simpl in H. apply orb_false_elim in H as [Hx Ha].
    rewrite Ascii.eqb_sym in Hx. now rewrite Hx, (IH Ha).
Qed.

Lemma split_cut_all c a b :
  Py.mem c a = false ->
  Py.split c None (a ++ String c b) = a :: Py.split c None b.
Proof.
  induction a as [|x a IH]; intros H; simpl.
  - now rewrite Ascii.eqb_refl.
  - simpl in H. apply orb_false_elim in H as [Hx Ha].
    rewrite Ascii.eqb_sym in Hx. now rewrite Hx, (IH Ha).
Qed.

(** From the right, the last piece starts after the last separator. *)
Lemma rsplit_cut c (n : nat) a b :
  Py.mem c b = false ->
  Py.rsplit c (Some (S n)) (a ++ String c b)
  = (Py.rsplit c (Some n) a ++ [b])%list.
Proof.
  intros H. unfold Py.rsplit.
  rewrite rev_app, rev_cons, append_assoc. simpl.
  rewrite split_cut by now rewrite mem_rev.
  simpl. now rewrite rev_involutive.
Qed.

(** The first piece of a split with no bound holds no separator. *)
Lemma split_head c s h (t : list string) :
  Py.split c None s = h :: t -> Py.mem c h = false.
Proof.
  destruct (first_occurrence c s) as [H | (a & b & -> & Ha)].
  - rewrite (split_absent _ _ _ H). now intros [= <- _].
  - rewrite (split_cut_all _ _ _ Ha). now intros [= <- _].
Qed.

Lemma split_one c s :
  (Py.mem c s = false /\ Py.split c (Some 1) s = [s])
  \/ exists a b, s = a ++ String c b /\ Py.mem c a = false
                 /\ Py.split c (Some 1) s = [a; b].
Proof.
  destruct (first_occurrence c s) as [H | (a & b & -> & Ha)].
  - left. split; [exact H | now apply split_absent].
  - right. exists a, b. split; [reflexivity|]. split; [exact Ha|].
    now apply split_first.
Qed.

(** A split with no bound cuts at every separator. *)
Lemma split_app_sep c a b :
  Py.split c None (a ++ String c b)
  = (Py.split c None a ++ Py.split c None b)%list.
Proof.
  induction a as [|x a IH]; simpl.
  - now rewrite Ascii.eqb_refl.
  - rewrite IH. destruct (Ascii.eqb x c); [reflexivity|].
    now destruct (split_cons c None a) as (h & t & ->).
Qed.

(** The last piece of a split with no bound is what follows the last
    separator. *)
Lemma split_last_piece c a b :
  Py.mem c b = false ->
  last_item (Py.split c None (a ++ String c b)) = Ok b.
Proof.
  intros Hb. rewrite split_app_sep, (split_absent _ _ _ Hb).
  unfold last_item. now rewrite List.rev_app_distr.
Qed.

End MoreTextFacts.

(** ** Records made by [zip] *)

Section DictFacts.

Implicit Types (keys vals : list string) (k : string) (m : record).

Lemma dict_zip_from_notin keys : forall vals m k,
  k ∉ keys ->
  foldl (fun m kv => <[kv.1 := VStr kv.2]> m) m (zip keys vals) !! k
  = m !! k.
Proof.
  induction keys as [|k0 keys IH]; intros vals m k Hk; [reflexivity|].
  destruct vals as [|v0 vals]; [reflexivity|]. simpl.
  apply not_elem_of_cons in Hk as [Hne Hk].
  rewrite (IH vals _ k Hk). now rewrite lookup_insert_ne.
Qed.

Lemma dict_zip_from keys : forall vals m (i : nat) k,
  NoDup keys -> keys !! i = Some k ->
  foldl (fun m kv => <[kv.1 := VStr kv.2]> m) m (zip keys vals) !! k
  = match vals !! i with
    | Some v => Some (VStr v)
    | None => m !! k
    end.
Proof.
  induction keys as [|k0 keys IH]; intros vals m i k Hnd Hi;
    [discriminate Hi|].
  apply NoDup_cons in Hnd as [Hk0 Hnd].
  destruct vals as [|v0 vals]; [reflexivity|]. simpl.
  destruct i as [|i]; simpl in *.
  - injection Hi as ->.
    rewrite (dict_zip_from_notin keys vals _ k Hk0).
    now rewrite lookup_insert_eq.
  - rewrite (IH vals _ i k Hnd Hi).
    destruct (vals !! i); [reflexivity|].
    rewrite lookup_insert_ne; [reflexivity|].
    intros ->. apply Hk0. eapply list_elem_of_lookup_2, Hi.
Qed.

(** The field of a key is the value at the position of the key. *)
Lemma dict_zip_lookup keys vals (i : nat) k :
  NoDup keys -> keys !! i = Some k ->
  dict_zip keys vals !! k = VStr <$> vals !! i.
Proof.
  intros Hnd Hi. unfold dict_zip. rewrite (dict_zip_from _ _ _ i k Hnd Hi).
  now destruct (vals !! i).
Qed.

Lemma dict_zip_lookup_notin keys vals k :
  k ∉ keys -> dict_zip keys vals !! k = None.
Proof. intros Hk. unfold dict_zip. now rewrite dict_zip_from_notin. Qed.

Lemma dict_zip_text keys vals k (v : value) :
  dict_zip keys vals !! k = Some v -> exists s, v = VStr s.
Proof.
  unfold dict_zip.
  assert (G : forall m,
    (forall v, m !! k = Some v -> exists s, v = VStr s) ->
    foldl (fun m kv => <[kv.1 := VStr kv.2]> m) m (zip keys vals) !! k
      = Some v -> exists s, v = VStr s).
  { revert vals. induction keys as [|k0 keys IH]; intros vals m Hm; simpl.
    - now apply Hm.
    - destruct vals as [|v0 vals]; simpl; [now apply Hm|].
      apply IH. intros v'. destruct (decide (k0 = k)) as [->|Hne].
      + rewrite lookup_insert_eq. intros [= <-]. eauto.
      + rewrite lookup_insert_ne by exact Hne. apply Hm. }
  apply G. intros v'. now rewrite lookup_empty.
Qed.

End DictFacts.

(** ** The portage parser *)

Section PortageFacts.

Implicit Types (self : PkgMgr) (package : string).

Lemma portage_atoms_nodup : NoDup PORTAGE.atoms.
Proof. apply (bool_decide_unpack _). vm_compute. exact I. Qed.

Lemma split_ws_blank package :
  Py.all_chars Py.isspace package = true -> Py.split_ws package = [].
Proof.
  unfold Py.split_ws. induction package as [|x s IH]; [reflexivity|].
  simpl. intros H. apply andb_prop in H as [Hx Hs].
  rewrite Hx. simpl. now apply IH.
Qed.

(** X16: the portage parser names the whitespace-separated tokens of a
    line by position, in the order of its atoms: the field of the atom
    at position [i] is the token at position [i], and is absent when the
    line has fewer tokens; the record has no other field, so tokens past
    the seventh are dropped, and a blank line gives the empty record,
    without even a name. *)
Theorem portage_fields_by_position self package :
  let r := PORTAGE.get_package_details self package in
  (forall (i : nat) k,
     PORTAGE.atoms !! i = Some k ->
     r !! k = VStr <$> Py.split_ws package !! i)
  /\ (forall k, k ∉ PORTAGE.atoms -> r !! k = None)
  /\ (Py.all_chars Py.isspace package = true -> r = ∅).
Proof.
  unfold PORTAGE.get_package_details. split; [|split].
  - intros i k Hi. apply dict_zip_lookup; [apply portage_atoms_nodup|exact Hi].
  - intros k Hk. now apply dict_zip_lookup_notin.
  - intros H. now rewrite (split_ws_blank _ H).
Qed.

End PortageFacts.

(** ** The apk parser *)

Section ApkFacts.

Implicit Types (self : PkgMgr) (r : record) (package tok : string).

Ltac look :=
  repeat first
    [ rewrite lookup_insert_eq
    | rewrite lookup_singleton_eq
    | rewrite lookup_insert_ne by discriminate
    | rewrite lookup_singleton_ne by discriminate ];
  try reflexivity.

Lemma rsplit_zero c s : Py.rsplit c (Some 0) s = [s].
Proof.
  unfold Py.rsplit. rewrite split_zero. simpl. now rewrite rev_involutive.
Qed.

Lemma last_item_cons {A : Type} (x : A) (l : list A) :
  exists y, last_item (x :: l) = Ok y.
Proof.
  unfold last_item. simpl.
  destruct (List.rev l) as [|y l'] eqn:E; simpl; eauto.
Qed.

Lemma first_token_split package tok :
  first_token package tok ->
  exists t, Py.split " " None package = tok :: t.
Proof.
  intros [Ht [-> | [rest ->]]].
  - exists []. now apply split_absent.
  - eexists. now apply split_cut_all.
Qed.

(** The record when the pieces of the first token are known. *)
Lemma apk_details_of self package tok :
  first_token package tok ->
  _need_package_details self = true ->
  exists r,
    APK.get_package_details self package = Ok r
    /\ r !! "name" = VStr <$> Py.rsplit "-" (Some 2) tok !! 0
    /\ r !! "version" = VStr <$> Py.rsplit "-" (Some 2) tok !! 1
    /\ r !! "release" = VStr <$> Py.rsplit "-" (Some 2) tok !! 2.
Proof.
  intros Ht Hd. destruct (first_token_split _ _ Ht) as [t Hs].
  unfold APK.get_package_details. rewrite Hs, Hd.
  destruct (last_item_cons tok t) as [y Hy]. rewrite Hy.
  change (item (tok :: t) 0) with (Ok tok). cbn [bind].
  destruct (rsplit_cons "-" (Some 2) tok) as (n & l & ->).
  destruct l as [|v [|rl l]]; simpl;
    destruct (_all_available self); simpl; eexists; (split; [reflexivity|]);
    repeat split; look.
Qed.

(** X15: with details asked for, the apk parser cuts the first
    space-delimited token at its last two hyphens: a token with no hyphen
    is the name alone; with one hyphen it is name and version; with more,
    the release follows the last hyphen, the version the one before, and
    the name is all that precedes, hyphens included. *)
Theorem apk_name_version_release self package tok :
  _need_package_details self = true ->
  first_token package tok ->
  exists r,
    APK.get_package_details self package = Ok r
    /\ (Py.mem "-" tok = false ->
        r !! "name" = Some (VStr tok)
        /\ r !! "version" = None /\ r !! "release" = None)
    /\ (forall a b,
          tok = a ++ "-" ++ b -> Py.mem "-" a = false ->
          Py.mem "-" b = false ->
          r !! "name" = Some (VStr a)
          /\ r !! "version" = Some (VStr b) /\ r !! "release" = None)
    /\ (forall a b c,
          tok = a ++ "-" ++ b ++ "-" ++ c -> Py.mem "-" b = false ->
          Py.mem "-" c = false ->
          r !! "name" = Some (VStr a)
          /\ r !! "version" = Some (VStr b)
          /\ r !! "release" = Some (VStr c)).
Proof.
  intros Hd Ht.
  destruct (apk_details_of self package tok Ht Hd)
    as (r & Hr & Hn & Hv & Hl).
  exists r. split; [exact Hr|]. split; [|split].
  - intros H. rewrite (rsplit_absent _ _ _ H) in *. now simpl in *.
  - intros a b -> Ha Hb.
    change (a ++ "-" ++ b) with (a ++ String "-" b) in *.
    rewrite (rsplit_cut _ _ _ _ Hb), (rsplit_absent _ _ _ Ha) in *.
    now simpl in *.
  - intros a b c -> Hb Hc.
    assert (E : a ++ "-" ++ b ++ "-" ++ c
                = (a ++ String "-" b) ++ String "-" c)
      by now rewrite append_assoc.
    rewrite E in *.
    rewrite (rsplit_cut _ _ _ _ Hc), (rsplit_cut _ _ _ _ Hb), rsplit_zero
      in *.
    now simpl in *.
Qed.

Lemma mem_cut c a b : Py.mem c (a ++ String c b) = true.
Proof.
  rewrite mem_app. simpl. rewrite Ascii.eqb_refl. now rewrite orb_true_r.
Qed.

(** The last space-delimited token of a line is [[installed]] exactly
    when the line ends with it after a space, or is it. *)
Lemma last_token_installed package y :
  last_item (Py.split " " None package) = Ok y ->
  y = "[installed]" <-> marked_installed package.
Proof.
  intros Hy. unfold marked_installed.
  destruct (last_occurrence " " package) as [H | (a & b & -> & Hb)].
  - rewrite (split_absent _ _ _ H) in Hy. injection Hy as <-.
    split; [now left|]. intros [-> | [pre ->]]; [reflexivity|].
    change (pre ++ " [installed]") with (pre ++ String " " "[installed]") in H.
    now rewrite mem_cut in H.
  - rewrite (split_last_piece _ _ _ Hb) in Hy. injection Hy as <-.
    split.
    + intros ->. right. now exists a.
    + intros [E | [pre E]].
      * apply (f_equal (Py.mem " ")) in E. rewrite mem_cut in E.
        discriminate E.
      * change (pre ++ " [installed]")
          with (pre ++ String " " "[installed]") in E.
        pose proof (split_last_piece " " pre "[installed]" eq_refl) as L.
        rewrite <- E, (split_last_piece _ _ _ Hb) in L.
        now injection L.
Qed.

(** X14: the apk parser returns a record for every line, with a name;
    the record has the field [installed] exactly when details and all
    available packages are asked for, and the field is true exactly
    when the line ends with the token [[installed]]. *)
Theorem apk_installed_flag self package :
  exists r,
    APK.get_package_details self package = Ok r
    /\ is_Some (r !! "name")
    /\ (_need_package_details self && _all_available self = false ->
        r !! "installed" = None)
    /\ (_need_package_details self && _all_available self = true ->
        exists b,
          r !! "installed" = Some (VBool b)
          /\ (b = true <-> marked_installed package)).
Proof.
  unfold APK.get_package_details.
  destruct (split_cons " " None package) as (tok & t & Hs).
  destruct (last_item_cons tok t) as [y Hy].
  assert (Hm : y = "[installed]" <-> marked_installed package)
    by (apply last_token_installed; now rewrite Hs).
  rewrite Hs, Hy. change (item (tok :: t) 0) with (Ok tok). cbn [bind].
  destruct (rsplit_cons "-" (Some 2) tok) as (n & l & ->).
  destruct (_need_package_details self), (_all_available self);
    destruct l as [|v [|rl l]]; simpl;
    eexists; (split; [reflexivity|]);
    (split; [look; eauto|]);
    (split; [intros; try discriminate; look|]);
    intros; try discriminate;
    exists (String.eqb y "[installed]"); (split; [look|]);
    rewrite <- Hm; apply String.eqb_eq.
Qed.

End ApkFacts.

(** ** The pkg parser *)

Section PkgFacts.

Implicit Types (self : PkgMgr) (package : string) (pkg r : record).

Ltac look :=
  repeat first
    [ rewrite lookup_insert_eq
    | rewrite lookup_singleton_eq
    | rewrite lookup_insert_ne by discriminate
    | rewrite lookup_singleton_ne by discriminate ];
  try reflexivity.

Lemma bind_ok {A B : Type} (x : result A) (k : A -> result B) (b : B) :
  bind x k = Ok b -> exists a, x = Ok a /\ k a = Ok b.
Proof. destruct x as [a|e]; simpl; [eauto | discriminate]. Qed.

Lemma when_in_absent k pkg (f : string -> result record) :
  pkg !! k = None -> when_in k pkg f = Ok pkg.
Proof. unfold when_in. now intros ->. Qed.

Lemma when_in_text k pkg (f : string -> result record) s :
  pkg !! k = Some (VStr s) -> when_in k pkg f = f s.
Proof. unfold when_in, getstr. now intros ->. Qed.

Lemma text_field_cases pkg k :
  text_field pkg k ->
  pkg !! k = None \/ exists s, pkg !! k = Some (VStr s).
Proof.
  intros H. destruct (pkg !! k) as [v|] eqn:E; [|now left].
  destruct (H v E) as [s ->]. right. now exists s.
Qed.

(** [pkg['arch'] = pkg['arch'].split(':')[2]], when there is one. *)
Lemma arch_step pkg :
  text_field pkg "arch" ->
  exists p1,
    when_in "arch" pkg
      (fun s =>
         match item (Py.split ":" None s) 2 with
         | Ok a => Ok (<["arch" := VStr a]> pkg)
         | Raise _ => Ok pkg
         end) = Ok p1
    /\ (forall k, k <> "arch" -> p1 !! k = pkg !! k)
    /\ (pkg !! "arch" = None -> p1 !! "arch" = None)
    /\ (forall s, pkg !! "arch" = Some (VStr s) ->
          p1 !! "arch" = Some (VStr (default s (Py.split ":" None s !! 2)))).
Proof.
  intros Ht. destruct (text_field_cases _ _ Ht) as [E | [s E]].
  - exists pkg. rewrite (when_in_absent _ _ _ E).
    split; [reflexivity|]. split; [reflexivity|]. split; [easy|].
    intros s0 H0. rewrite E in H0. discriminate H0.
  - rewrite (when_in_text _ _ _ _ E). unfold item.
    destruct (Py.split ":" None s !! 2) as [a|] eqn:Ea; eexists;
      (split; [reflexivity|]).
    + split; [intros k Hk; now rewrite lookup_insert_ne|].
      split; [now rewrite E|]. intros s'. rewrite E. intros [= <-].
      now rewrite Ea, lookup_insert_eq.
    + split; [reflexivity|]. split; [now rewrite E|].
      intros s'. rewrite E. intros [= <-]. now rewrite Ea.
Qed.

(** [pkg['category'] = pkg['category'].split('/', 1)[0]] *)
Lemma category_step pkg :
  text_field pkg "category" ->
  exists p3,
    when_in "category" pkg
      (fun s =>
         let* c := item (Py.split "/" (Some 1) s) 0 in
         Ok (<["category" := VStr c]> pkg)) = Ok p3
    /\ (forall k, k <> "category" -> p3 !! k = pkg !! k)
    /\ (pkg !! "category" = None -> p3 !! "category" = None)
    /\ (forall s, pkg !! "category" = Some (VStr s) ->
          (forall a b, cut_at_first "/" s a b ->
             p3 !! "category" = Some (VStr a))
          /\ (Py.mem "/" s = false -> p3 !! "category" = Some (VStr s))).
Proof.
  intros Ht. destruct (text_field_cases _ _ Ht) as [E | [s E]].
  - exists pkg. rewrite (when_in_absent _ _ _ E).
    split; [reflexivity|]. split; [reflexivity|]. split; [easy|].
    intros s0 H0. rewrite E in H0. discriminate H0.
  - rewrite (when_in_text _ _ _ _ E).
    destruct (split_cons "/" (Some 1) s) as (h & t & Eh).
    rewrite Eh. change (item (h :: t) 0) with (Ok h). cbn [bind].
    eexists. split; [reflexivity|].
    split; [intros k Hk; now rewrite lookup_insert_ne|].
    split; [now rewrite E|]. intros s'. rewrite E. intros [= <-].
    rewrite lookup_insert_eq. split.
    + intros a b [-> Ha]. rewrite (split_first _ _ _ Ha) in Eh.
      now injection Eh as <- _.
    + intros Hs. rewrite (split_absent _ _ _ Hs) in Eh.
      now injection Eh as <- _.
Qed.

(** The step on the version column. *)
Lemma version_step pkg :
  text_field pkg "version" ->
  exists p4,
    when_in "version" pkg
      (fun s =>
         let* (version, pkg) :=
           if Py.contains "," s then
             match Py.split "," (Some 1) s with
             | [v; e] =>
                 Ok (v, <["port_epoch" := VStr e]> (<["version" := VStr v]> pkg))
             | _ => Raise ValueError
             end
           else Ok (s, <["port_epoch" := VInt 0]> pkg) in
         if Py.contains "_" version then
           match Py.split "_" (Some 1) version with
           | [v; r] => Ok (<["revision" := VStr r]> (<["version" := VStr v]> pkg))
           | _ => Raise ValueError
           end
         else Ok (<["revision" := VStr "0"]> pkg)) = Ok p4
    /\ (forall k, k <> "version" -> k <> "port_epoch" -> k <> "revision" ->
          p4 !! k = pkg !! k)
    /\ (pkg !! "version" = None -> p4 = pkg)
    /\ (forall s, pkg !! "version" = Some (VStr s) ->
          version_and_port_epoch p4 s).
Proof.
  intros Ht. destruct (text_field_cases _ _ Ht) as [E | [s E]].
  - exists pkg. rewrite (when_in_absent _ _ _ E).
    split; [reflexivity|]. split; [reflexivity|]. split; [easy|].
    intros s0 H0. rewrite E in H0. discriminate H0.
  - rewrite (when_in_text _ _ _ _ E). unfold Py.contains.
    assert (Hrev : forall t q,
      q !! "version" = Some (VStr t) ->
      exists p4,
        (if Py.mem "_" t
         then match Py.split "_" (Some 1) t with
              | [v; r] =>
                  Ok (<["revision" := VStr r]> (<["version" := VStr v]> q))
              | _ => Raise ValueError
              end
         else Ok (<["revision" := VStr "0"]> q)) = Ok p4
        /\ (forall k, k <> "version" -> k <> "revision" -> p4 !! k = q !! k)
        /\ version_and_revision p4 t).
    { intros t q Hq.
      destruct (split_one "_" t) as [[Hu Eu] | (a & b & Eu' & Ha & Eu)].
      - rewrite Hu. eexists. split; [reflexivity|].
        split; [intros k K1 K2; now rewrite lookup_insert_ne|]. split.
        + intros v rv [-> _]. now rewrite mem_cut in Hu.
        + intros _. look. now rewrite Hq.
      - rewrite Eu', mem_cut. rewrite <- Eu', Eu.
        eexists. split; [reflexivity|].
        split; [intros k K1 K2; now rewrite !lookup_insert_ne|]. split.
        + intros v rv [Ev Hv]. rewrite Ev, (split_first _ _ _ Hv) in Eu.
          injection Eu as <- <-. split; look.
        + intros Hu. now rewrite Eu', mem_cut in Hu. }
    destruct (split_one "," s) as [[Hc Es] | (a & b & Es' & Ha & Es)].
    + rewrite Hc. cbn [bind].
      destruct (Hrev s (<["port_epoch" := VInt 0]> pkg)) as (p4 & E4 & F4 & V4);
        [now rewrite lookup_insert_ne|].
      exists p4. split; [exact E4|]. split.
      * intros k K1 K2 K3. rewrite F4 by assumption. now rewrite lookup_insert_ne.
      * split; [now rewrite E|]. intros s'. rewrite E. intros [= <-]. split.
        -- intros a b [-> _]. now rewrite mem_cut in Hc.
        -- intros _. split; [|exact V4]. rewrite F4 by discriminate. look.
    + rewrite Es', mem_cut. rewrite <- Es', Es. cbn [bind].
      destruct (Hrev a (<["port_epoch" := VStr b]>
                          (<["version" := VStr a]> pkg)))
        as (p4 & E4 & F4 & V4); [look|].
      exists p4. split; [exact E4|]. split.
      * intros k K1 K2 K3. rewrite F4 by assumption.
        now rewrite !lookup_insert_ne.
      * split; [now rewrite E|]. intros s'. rewrite E. intros [= <-]. split.
        -- intros a' b' [Ev Hv]. rewrite Ev, (split_first _ _ _ Hv) in Es.
           injection Es as <- <-. split; [|exact V4].
           rewrite F4 by discriminate. look.
        -- intros Hc. now rewrite Es', mem_cut in Hc.
Qed.

Lemma to_bool_cases k pkg :
  text_field pkg k ->
  (pkg !! k = None /\ PKG.to_bool k pkg = Ok pkg)
  \/ exists s,
       pkg !! k = Some (VStr s)
       /\ ((Py.int s = None /\ PKG.to_bool k pkg = Raise ValueError)
           \/ exists z,
                Py.int s = Some z
                /\ PKG.to_bool k pkg = Ok (<[k := VBool (truthy z)]> pkg)).
Proof.
  intros Ht. unfold PKG.to_bool.
  destruct (text_field_cases _ _ Ht) as [E | [s E]].
  - left. split; [exact E | now apply when_in_absent].
  - right. exists s. split; [exact E|]. rewrite (when_in_text _ _ _ _ E).
    destruct (Py.int s) as [z|]; [right; eauto | now left].
Qed.

Lemma text_field_eq pkg pkg' k :
  pkg' !! k = pkg !! k -> text_field pkg k -> text_field pkg' k.
Proof. unfold text_field. now intros ->. Qed.

Lemma pkg_atoms_nodup : NoDup PKG.atoms.
Proof. apply (bool_decide_unpack _). vm_compute. exact I. Qed.

(** The run of the parser: the records after each step, the fields
    each step leaves as they are, and where the run can raise. *)
Lemma pkg_run self package :
  let pkg0 := dict_zip PKG.atoms (Py.split tab None package) in
  exists p1 p2 p3 p4,
    (forall k, k <> "arch" -> p1 !! k = pkg0 !! k)
    /\ (pkg0 !! "arch" = None -> p1 !! "arch" = None)
    /\ (forall s, pkg0 !! "arch" = Some (VStr s) ->
          p1 !! "arch" = Some (VStr (default s (Py.split ":" None s !! 2))))
    /\ (forall k, k <> "category" -> p3 !! k = p2 !! k)
    /\ (p2 !! "category" = None -> p3 !! "category" = None)
    /\ (forall s, p2 !! "category" = Some (VStr s) ->
          (forall a b, cut_at_first "/" s a b ->
             p3 !! "category" = Some (VStr a))
          /\ (Py.mem "/" s = false -> p3 !! "category" = Some (VStr s)))
    /\ (forall k, k <> "version" -> k <> "port_epoch" -> k <> "revision" ->
          p4 !! k = p3 !! k)
    /\ (p3 !! "version" = None -> p4 = p3)
    /\ (forall s, p3 !! "version" = Some (VStr s) ->
          version_and_port_epoch p4 s)
    /\ ((exists s, pkg0 !! "automatic" = Some (VStr s) /\ Py.int s = None
                   /\ PKG.get_package_details self package = Raise ValueError)
        \/ (PKG.to_bool "automatic" p1 = Ok p2
            /\ PKG.get_package_details self package = PKG.to_bool "vital" p4)).
Proof.
  intros pkg0.
  assert (T0 : forall k, text_field pkg0 k)
    by (intros k v; apply dict_zip_text).
  destruct (arch_step pkg0 (T0 _)) as (p1 & E1 & F1 & A1 & A1').
  assert (T1 : forall k, k <> "arch" -> text_field p1 k)
    by (intros k Hk; apply (text_field_eq pkg0); [now apply F1 | apply T0]).
  destruct (to_bool_cases "automatic" p1 (T1 "automatic" ltac:(discriminate)))
    as [[B E2] | (s & B & [[Hi E2] | (z & Hi & E2)])].
  - (* no automatic column *)
    destruct (category_step p1 (T1 "category" ltac:(discriminate)))
      as (p3 & E3 & F3 & C3 & C3').
    assert (T3 : text_field p3 "version").
    { apply (text_field_eq p1); [now apply F3|]. now apply T1. }
    destruct (version_step p3 T3) as (p4 & E4 & F4 & V4 & V4').
    exists p1, p1, p3, p4. repeat (split; [assumption|]).
    right. split; [exact E2|].
    unfold PKG.get_package_details. fold pkg0.
    rewrite E1. cbn [bind]. rewrite E2. cbn [bind]. rewrite E3. cbn [bind].
    now rewrite E4.
  - (* the automatic column is not an integer *)
    destruct (category_step p1 (T1 "category" ltac:(discriminate)))
      as (p3 & E3 & F3 & C3 & C3').
    assert (T3 : text_field p3 "version").
    { apply (text_field_eq p1); [now apply F3|]. now apply T1. }
    destruct (version_step p3 T3) as (p4 & E4 & F4 & V4 & V4').
    exists p1, p1, p3, p4. repeat (split; [assumption|]).
    left. exists s. rewrite <- (F1 "automatic") by discriminate.
    split; [exact B|]. split; [exact Hi|].
    unfold PKG.get_package_details. fold pkg0.
    rewrite E1. cbn [bind]. now rewrite E2.
  - set (p2 := <["automatic" := VBool (truthy z)]> p1) in *.
    assert (F2 : forall k, k <> "automatic" -> p2 !! k = p1 !! k)
      by (intros k Hk; unfold p2; now rewrite lookup_insert_ne).
    assert (T2 : forall k, k <> "arch" -> k <> "automatic" -> text_field p2 k).
    { intros k K1 K2. apply (text_field_eq p1); [now apply F2|].
      now apply T1. }
    destruct (category_step p2
                (T2 "category" ltac:(discriminate) ltac:(discriminate)))
      as (p3 & E3 & F3 & C3 & C3').
    assert (T3 : text_field p3 "version").
    { apply (text_field_eq p2); [now apply F3|]. now apply T2. }
    destruct (version_step p3 T3) as (p4 & E4 & F4 & V4 & V4').
    exists p1, p2, p3, p4. repeat (split; [assumption|]).
    right. split; [exact E2|].
    unfold PKG.get_package_details. fold pkg0.
    rewrite E1. cbn [bind]. rewrite E2. cbn [bind]. rewrite E3. cbn [bind].
    now rewrite E4.
Qed.

Lemma to_bool_ok k pkg pkg' :
  PKG.to_bool k pkg = Ok pkg' ->
  (forall k', k' <> k -> pkg' !! k' = pkg !! k')
  /\ ((pkg !! k = None /\ pkg' !! k = None)
      \/ exists s z, pkg !! k = Some (VStr s) /\ Py.int s = Some z
                     /\ pkg' !! k = Some (VBool (truthy z))).
Proof.
  unfold PKG.to_bool, when_in, getstr.
  destruct (pkg !! k) as [[s| | | |]|] eqn:E; simpl; try discriminate.
  - destruct (Py.int s) as [z|] eqn:Ez; [|discriminate].
    intros [= <-]. split; [intros k' Hk; now rewrite lookup_insert_ne|].
    right. exists s, z. now rewrite lookup_insert_eq.
  - intros [= <-]. split; [reflexivity|]. now left.
Qed.

Lemma pkg_zip_lookup package (i : nat) k :
  PKG.atoms !! i = Some k ->
  dict_zip PKG.atoms (Py.split tab None package) !! k
  = VStr <$> Py.split tab None package !! i.
Proof. apply dict_zip_lookup, pkg_atoms_nodup. Qed.

(** The fields of a returned record, through the steps. *)
Lemma pkg_result self package r :
  PKG.get_package_details self package = Ok r ->
  let cols := Py.split tab None package in
  (* the columns no step touches *)
  (r !! "name" = VStr <$> cols !! 0
   /\ r !! "origin" = VStr <$> cols !! 2
   /\ r !! "installed" = VStr <$> cols !! 3
   /\ r !! "prefix" = VStr <$> cols !! 7)
  (* arch and category *)
  /\ (r !! "arch"
      = (fun s => VStr (default s (Py.split ":" None s !! 2))) <$> cols !! 5)
  /\ (cols !! 6 = None -> r !! "category" = None)
  /\ (forall s, cols !! 6 = Some s ->
        (forall a b, cut_at_first "/" s a b -> r !! "category" = Some (VStr a))
        /\ (Py.mem "/" s = false -> r !! "category" = Some (VStr s)))
  (* version *)
  /\ (cols !! 1 = None ->
      r !! "version" = None /\ r !! "port_epoch" = None
      /\ r !! "revision" = None)
  /\ (forall s, cols !! 1 = Some s -> version_and_port_epoch r s)
  (* the two flags *)
  /\ (forall (i : nat) k, (i = 4 /\ k = "automatic") \/ (i = 8 /\ k = "vital") ->
        (cols !! i = None /\ r !! k = None)
        \/ exists s z, cols !! i = Some s /\ Py.int s = Some z
                       /\ r !! k = Some (VBool (truthy z))).
Proof.
  intros H cols.
  destruct (pkg_run self package)
    as (p1 & p2 & p3 & p4 & F1 & A1 & A1' & F3 & C3 & C3' & F4 & V4 & V4'
        & [(s & _ & _ & E) | [E2 E]]);
    [rewrite H in E; discriminate E|].
  rewrite H in E. symmetry in E.
  apply to_bool_ok in E as [F5 B5]. apply to_bool_ok in E2 as [F2 B2].
  pose proof (fun i k => pkg_zip_lookup package i k) as Z.
  subst cols. set (cols := Py.split tab None package) in *.
  assert (N : forall k, k = "port_epoch" \/ k = "revision" ->
                        dict_zip PKG.atoms cols !! k = None).
  { intros k Hk. apply dict_zip_lookup_notin. intros Hin.
    unfold PKG.atoms in Hin.
    repeat (apply elem_of_cons in Hin as [-> | Hin];
            [now destruct Hk as [Hk | Hk] |]).
    now apply elem_of_nil in Hin. }
  assert (Hv : p3 !! "version" = VStr <$> cols !! 1).
  { rewrite F3, F2, F1 by discriminate. now apply Z. }
  split; [|split; [|split; [|split; [|split; [|split]]]]].
  - repeat split.
    + rewrite F5, F4, F3, F2, F1 by discriminate. now apply Z.
    + rewrite F5, F4, F3, F2, F1 by discriminate. now apply Z.
    + rewrite F5, F4, F3, F2, F1 by discriminate. now apply Z.
    + rewrite F5, F4, F3, F2, F1 by discriminate. now apply Z.
  - rewrite F5, F4, F3, F2 by discriminate.
    pose proof (Z 5 "arch" eq_refl) as Za.
    destruct (cols !! 5) as [s|]; simpl in *; [now apply A1' | now apply A1].
  - intros Hc. rewrite F5, F4 by discriminate. apply C3.
    rewrite F2, F1 by discriminate. rewrite (Z 6 "category" eq_refl).
    now rewrite Hc.
  - intros s Hc.
    assert (Hp : p2 !! "category" = Some (VStr s)).
    { rewrite F2, F1 by discriminate. rewrite (Z 6 "category" eq_refl).
      now rewrite Hc. }
    destruct (C3' s Hp) as [C1 C2].
    split; [intros a b Hab|intros Hs]; rewrite F5, F4 by discriminate; eauto.
  - intros Hc. rewrite Hc in Hv.
    rewrite !F5 by discriminate. rewrite (V4 Hv). split; [exact Hv|].
    split; rewrite F3, F2, F1 by discriminate; apply N; auto.
  - intros s Hc. rewrite Hc in Hv. destruct (V4' s Hv) as [W1 W2].
    unfold version_and_port_epoch, version_and_revision in *.
    rewrite !F5 by discriminate. split; assumption.
  - intros i k [[-> ->] | [-> ->]].
    + rewrite F5, F4, F3 by discriminate.
      rewrite (F1 "automatic"), (Z 4 "automatic" eq_refl) in B2
        by discriminate.
      destruct B2 as [[B2 B2'] | (s & z & B2 & Hz & B2')].
      * left. split; [|exact B2']. now destruct (cols !! 4).
      * right. exists s, z. split; [|now split].
        destruct (cols !! 4); [now injection B2 as -> | discriminate B2].
    + rewrite F4, F3, F2, F1, (Z 8 "vital" eq_refl) in B5 by discriminate.
      destruct B5 as [[B5 B5'] | (s & z & B5 & Hz & B5')].
      * left. split; [|exact B5']. now destruct (cols !! 8).
      * right. exists s, z. split; [|now split].
        destruct (cols !! 8); [now injection B5 as -> | discriminate B5].
Qed.

(** X17: the pkg parser keeps the columns name, origin, installed and
    prefix of a line as they are read, by position (0, 2, 3 and 7 of
    the tab-separated columns); the name is always there. *)
Theorem pkg_kept_columns self package r :
  PKG.get_package_details self package = Ok r ->
  let cols := Py.split tab None package in
  is_Some (r !! "name")
  /\ r !! "name" = VStr <$> cols !! 0
  /\ r !! "origin" = VStr <$> cols !! 2
  /\ r !! "installed" = VStr <$> cols !! 3
  /\ r !! "prefix" = VStr <$> cols !! 7.
Proof.
  intros H cols.
  destruct (pkg_result self package r H) as ((H0 & H2 & H3 & H7) & _).
  fold cols in H0, H2, H3, H7. split; [|now repeat split].
  rewrite H0. subst cols.
  destruct (split_cons tab None package) as (h & t & ->). simpl. eauto.
Qed.

(** X18: the pkg parser cuts the version column at its first comma into
    the version part and the port epoch, and the version part at its
    first underscore into version and revision; without a comma the port
    epoch is the integer 0, without an underscore the revision is the
    text [0]; a line with the name column alone has none of the three
    fields. *)
Theorem pkg_version_fields self package r :
  PKG.get_package_details self package = Ok r ->
  let cols := Py.split tab None package in
  (forall s, cols !! 1 = Some s -> version_and_port_epoch r s)
  /\ (cols !! 1 = None ->
      r !! "version" = None /\ r !! "port_epoch" = None
      /\ r !! "revision" = None).
Proof.
  intros H cols.
  destruct (pkg_result self package r H) as (_ & _ & _ & _ & V0 & V1 & _).
  now split.
Qed.


(** X20: the pkg parser keeps of the arch column its third
    colon-separated piece, and leaves the column as it is when it has
    fewer than three pieces; it keeps of the category column what
    precedes its first slash. *)
Theorem pkg_arch_and_category self package r :
  PKG.get_package_details self package = Ok r ->
  let cols := Py.split tab None package in
  (forall s, cols !! 5 = Some s ->
     r !! "arch" = Some (VStr (default s (Py.split ":" None s !! 2)))
     /\ (Py.mem ":" s = false -> r !! "arch" = Some (VStr s))
     /\ (forall a b, s = a ++ ":" ++ b -> Py.mem ":" a = false ->
           Py.mem ":" b = false -> r !! "arch" = Some (VStr s))
     /\ (forall a b c, s = a ++ ":" ++ b ++ ":" ++ c ->
           Py.mem ":" a = false -> Py.mem ":" b = false ->
           Py.mem ":" c = false -> r !! "arch" = Some (VStr c)))
  /\ (forall s, cols !! 6 = Some s ->
        (forall a b, cut_at_first "/" s a b ->
           r !! "category" = Some (VStr a))
        /\ (Py.mem "/" s = false -> r !! "category" = Some (VStr s))).
Proof.
  intros H cols.
  destruct (pkg_result self package r H) as (_ & A & _ & C & _).
  fold cols in A, C. split; [|exact C].
  intros s Hs. rewrite Hs in A. simpl in A. rewrite A.
  split; [reflexivity|]. split; [|split].
  - intros Hm. now rewrite (split_absent _ _ _ Hm).
  - intros a b -> Ha Hb.
    change (a ++ ":" ++ b) with (a ++ String ":" b).
    now rewrite (split_cut_all _ _ _ Ha), (split_absent _ _ _ Hb).
  - intros a b c -> Ha Hb Hc.
    change (a ++ ":" ++ b ++ ":" ++ c)
      with (a ++ String ":" (b ++ String ":" c)).
    now rewrite (split_cut_all _ _ _ Ha), (split_cut_all _ _ _ Hb),
      (split_absent _ _ _ Hc).
Qed.

End PkgFacts.

(** ** The pacman parser *)

Section PacmanFacts.

Implicit Types (self : PkgMgr) (package line : string) (r : record)
  (raw : gmap string string) (last : option string).

Ltac look :=
  repeat first
    [ rewrite lookup_insert_eq
    | rewrite lookup_singleton_eq
    | rewrite lookup_insert_ne by discriminate
    | rewrite lookup_singleton_ne by discriminate ];
  try reflexivity.

Lemma provided_names_spec (ps ns : list string) :
  PACMAN.provided_names ps = Ok ns ->
  List.length ns = List.length ps
  /\ forall n, n ∈ ns -> Py.mem "=" n = false.
Proof.
  revert ns. induction ps as [|p ps IH]; intros ns; simpl.
  - intros [= <-]. split; [reflexivity|]. intros n Hn.
    now apply elem_of_nil in Hn.
  - destruct (split_cons "=" None p) as (h & t & E). rewrite E.
    change (item (h :: t) 0) with (Ok h). cbn [bind].
    destruct (PACMAN.provided_names ps) as [ns'|e]; [|discriminate].
    cbn [bind]. intros [= <-]. destruct (IH ns' eq_refl) as [Hl Hn].
    split; [simpl; now rewrite Hl|].
    intros n Hin. apply elem_of_cons in Hin as [-> | Hin]; [|now apply Hn].
    eapply split_head, E.
Qed.

(** The splitting of the provided names never fails. *)
Lemma provided_names_total (ps : list string) :
  exists ns, PACMAN.provided_names ps = Ok ns.
Proof.
  induction ps as [|p ps [ns IH]]; simpl; [eauto|].
  destruct (split_cons "=" None p) as (h & t & ->).
  change (item (h :: t) 0) with (Ok h). cbn [bind]. rewrite IH. simpl. eauto.
Qed.

(** X21: a record the pacman parser returns has the four fields name,
    version, arch and provides and no other, whatever the settings;
    the first three are text, and provides is [None] when the block
    says [None], and otherwise a list of names none of which holds an
    equals sign. *)
Theorem pacman_record_fields self package r :
  PACMAN.get_package_details self package = Ok r ->
  (exists name version arch,
     r !! "name" = Some (VStr name)
     /\ r !! "version" = Some (VStr version)
     /\ r !! "arch" = Some (VStr arch))
  /\ (r !! "provides" = Some VNone
      \/ exists names,
           r !! "provides" = Some (VList names)
           /\ forall n, n ∈ names -> Py.mem "=" n = false)
  /\ (forall k, k <> "name" -> k <> "version" -> k <> "arch" ->
                k <> "provides" -> r !! k = None).
Proof.
  unfold PACMAN.get_package_details. intros H.
  destruct (PACMAN.read_lines _ _) as [[raw last]|e]; [|discriminate H].
  cbn [bind] in H.
  destruct (PACMAN.detail raw "Provides") as [prov|e]; [|discriminate H].
  cbn [bind] in H.
  assert (Hp : exists provides,
    (if negb (String.eqb prov "None")
     then let* ns := PACMAN.provided_names (Py.split_str "  " prov)
          in Ok (VList ns)
     else Ok VNone) = Ok provides
    /\ (provides = VNone
        \/ exists names, provides = VList names
                         /\ forall n, n ∈ names -> Py.mem "=" n = false)).
  { destruct (negb (String.eqb prov "None")); [|eauto].
    destruct (provided_names_total (Py.split_str "  " prov)) as [ns E].
    rewrite E. cbn [bind]. eexists. split; [reflexivity|]. right.
    exists ns. split; [reflexivity|]. now apply provided_names_spec in E. }
  destruct Hp as (provides & Ep & Hp). rewrite Ep in H. cbn [bind] in H.
  destruct (PACMAN.detail raw "Name") as [name|e]; [|discriminate H].
  destruct (PACMAN.detail raw "Version") as [version|e]; [|discriminate H].
  destruct (PACMAN.detail raw "Architecture") as [arch|e];
    [|discriminate H].
  cbn [bind] in H. injection H as <-. split; [|split].
  - exists name, version, arch. repeat split; look.
  - destruct Hp as [-> | (names & -> & Hn)]; [left; look|].
    right. exists names. split; [look | exact Hn].
  - intros k K1 K2 K3 K4. rewrite !lookup_insert_ne by congruence.
    now rewrite lookup_singleton_ne by congruence.
Qed.

(** The keys read from some lines are keys of the lines. *)
Lemma read_lines_keys (lines : list string) :
  forall raw last raw' last',
    PACMAN.read_lines (raw, last) lines = Ok (raw', last') ->
    forall k, is_Some (raw' !! k) ->
      is_Some (raw !! k)
      \/ exists line v, line ∈ lines /\ pacman_pattern line k v.
Proof.
  induction lines as [|line rest IH]; intros raw last raw' last'; simpl.
  - intros [= <- <-]. auto.
  - destruct (PACMAN.key_value line) as [[k0 v0]|] eqn:E; cbn [bind].
    + intros H k Hk. apply (IH _ _ _ _ H) in Hk as [Hk | (l & v & Hl & Hp)].
      * destruct (decide (k0 = k)) as [->|Hne].
        -- right. exists line, v0. split; [now left|].
           now apply key_value_pattern.
        -- rewrite lookup_insert_ne in Hk by exact Hne. now left.
      * right. exists l, v. split; [now right | exact Hp].
    + destruct last as [k0|]; [|discriminate].
      destruct (raw !! k0) as [v0|] eqn:E0; [|discriminate]. cbn [bind].
      intros H k Hk. apply (IH _ _ _ _ H) in Hk as [Hk | (l & v & Hl & Hp)].
      * destruct (decide (k0 = k)) as [->|Hne].
        -- left. rewrite E0. eauto.
        -- rewrite lookup_insert_ne in Hk by exact Hne. now left.
      * right. exists l, v. split; [now right | exact Hp].
Qed.

(** X22: the pacman parser returns a record only for a block that has
    a line for each of the keys [Provides], [Name], [Version] and
    [Architecture]; a block without one of them makes it raise. *)
Theorem pacman_needs_four_keys self package r :
  PACMAN.get_package_details self package = Ok r ->
  forall k, k ∈ ["Provides"; "Name"; "Version"; "Architecture"] ->
    exists line v,
      line ∈ Py.splitlines package /\ pacman_pattern line k v.
Proof.
  unfold PACMAN.get_package_details. intros H k Hk.
  destruct (PACMAN.read_lines _ _) as [[raw last]|e] eqn:E;
    [|discriminate H].
  cbn [bind] in H.
  assert (Hd : is_Some (raw !! k)).
  { unfold PACMAN.detail in H.
    destruct (raw !! "Provides") as [prov|] eqn:E1; [|discriminate H].
    cbn [bind] in H.
    destruct (if negb (String.eqb prov "None") then _ else _) as [pv|e];
      [|discriminate H].
    cbn [bind] in H.
    destruct (raw !! "Name") as [name|] eqn:E2; [|discriminate H].
    destruct (raw !! "Version") as [version|] eqn:E3; [|discriminate H].
    destruct (raw !! "Architecture") as [arch|] eqn:E4; [|discriminate H].
    repeat (apply elem_of_cons in Hk as [-> | Hk]; [eauto|]).
    now apply elem_of_nil in Hk. }
  destruct (read_lines_keys _ _ _ _ _ E k Hd) as [Hk0 | Hl]; [|exact Hl].
  rewrite lookup_empty in Hk0. now destruct Hk0.
Qed.

Lemma concat_cons (x : string) (l : list string) :
  String.concat "" (x :: l) = x ++ String.concat "" l.
Proof.
  destruct l as [|y l]; [|reflexivity]. simpl. now rewrite append_nil_r.
Qed.

(** X23: in the loop over the lines of a block, a line of the key and
    value shape followed by lines that have not the shape gives the key
    its value followed, for each of those lines, by two spaces and the
    line without the whitespace that starts it. *)
Theorem pacman_continuation_lines line k v (conts : list string) raw last :
  pacman_pattern line k v ->
  (forall c, c ∈ conts -> forall k' v', ~ pacman_pattern c k' v') ->
  PACMAN.read_lines (raw, last) (line :: conts)
  = Ok (<[k := v ++ String.concat ""
                      ((fun c => "  " ++ Py.lstrip c) <$> conts)]> raw,
        Some k).
Proof.
  intros Hp Hc. apply key_value_pattern in Hp. simpl. rewrite Hp. cbn [bind].
  clear Hp. revert v raw. induction conts as [|c conts IH]; intros v raw.
  - simpl. now rewrite append_nil_r.
  - rewrite fmap_cons, concat_cons.
    cbn [PACMAN.read_lines PACMAN.read_line].
    destruct (PACMAN.key_value c) as [[k' v']|] eqn:E.
    { apply key_value_pattern in E. now destruct (Hc c ltac:(left) k' v'). }
    rewrite lookup_insert_eq. cbn [bind].
    rewrite insert_insert_eq.
    rewrite IH by (intros c' Hc'; apply Hc; now right).
    now rewrite !append_assoc.
Qed.

End PacmanFacts.

(** ** The apt backend *)

Section AptFacts.

Implicit Types (self : PkgMgr) (pkg_cache : APT.cache) (package pk : string).

Lemma apt_keys pkg_cache pk :
  pk ∈ APT.keys pkg_cache <-> is_Some (pkg_cache !! pk).
Proof.
  unfold APT.keys. rewrite list_elem_of_fmap. split.
  - intros ([k d] & -> & H). apply elem_of_map_to_list in H.
    simpl. rewrite H. eauto.
  - intros [d H]. exists (pk, d). split; [reflexivity|].
    now apply elem_of_map_to_list.
Qed.

(** X12: with details asked for, the apt parser returns a record exactly
    for a package of the cache that, unless all available packages are
    asked for, has an installed version with an origin; it raises
    [KeyError] for a package that is not in the cache, [AttributeError]
    for one with no installed version and [IndexError] for an installed
    version without origin. *)
Theorem apt_details_cases self pkg_cache package :
  _need_package_details self = true ->
  match pkg_cache !! package with
  | None =>
      APT.get_package_details self pkg_cache package
      = Raise (KeyError (VStr package))
  | Some pkg_data =>
      if _all_available self then
        APT.get_package_details self pkg_cache package
        = Ok (<["is_installed" := VBool (APT.is_installed pkg_data)]>
               {[ "name" := VStr package ]})
      else
        match APT.installed pkg_data with
        | None =>
            APT.get_package_details self pkg_cache package
            = Raise AttributeError
        | Some ac_pkg =>
            match APT.origins ac_pkg with
            | [] =>
                APT.get_package_details self pkg_cache package
                = Raise IndexError
            | o :: _ =>
                exists r,
                  APT.get_package_details self pkg_cache package = Ok r
                  /\ r !! "name" = Some (VStr package)
                  /\ r !! "version" = Some (APT.version ac_pkg)
                  /\ r !! "arch" = Some (APT.architecture ac_pkg)
                  /\ r !! "category" = Some (APT.section ac_pkg)
                  /\ r !! "origin" = Some (APT.origin o)
                  /\ r !! "is_installed" = None
            end
        end
  end.
Proof.
  intros Hd. unfold APT.get_package_details. rewrite Hd. cbn [negb].
  destruct (pkg_cache !! package) as [pkg_data|]; [|reflexivity].
  cbn [bind]. destruct (_all_available self); [reflexivity|].
  destruct (APT.installed pkg_data) as [ac_pkg|]; [|reflexivity].
  destruct (APT.origins ac_pkg) as [|o os]; [reflexivity|].
  change (item (o :: os) 0) with (Ok o). cbn [bind].
  eexists. split; [reflexivity|].
  repeat split;
    repeat first
      [ rewrite lookup_insert_eq
      | rewrite lookup_singleton_eq
      | rewrite lookup_insert_ne by discriminate
      | rewrite lookup_singleton_ne by discriminate ];
    reflexivity.
Qed.

(** X13: the apt listing names each package of the cache at most once,
    and names it exactly when all available packages are asked for or
    the package is installed; so the parser never raises [KeyError] for
    a listed name, and when all available packages are asked for, with
    details, every listed name gets a record with its name and whether
    it is installed. *)
Theorem apt_listing_and_details self pkg_cache :
  NoDup (APT.list_installed self pkg_cache)
  /\ (forall pk,
        pk ∈ APT.list_installed self pkg_cache
        <-> exists pkg_data,
              pkg_cache !! pk = Some pkg_data
              /\ (_all_available self = true
                  \/ APT.is_installed pkg_data = true))
  /\ (forall pk key,
        pk ∈ APT.list_installed self pkg_cache ->
        APT.get_package_details self pkg_cache pk <> Raise (KeyError key))
  /\ (_all_available self = true -> _need_package_details self = true ->
      forall pk,
        pk ∈ APT.list_installed self pkg_cache ->
        APT.get_package_details self pkg_cache pk
        = Ok (<["is_installed" := VBool (APT.installed_in pkg_cache pk)]>
               {[ "name" := VStr pk ]})).
Proof.
  assert (Hin : forall pk,
    pk ∈ APT.list_installed self pkg_cache
    <-> exists pkg_data,
          pkg_cache !! pk = Some pkg_data
          /\ (_all_available self = true
              \/ APT.is_installed pkg_data = true)).
  { intros pk. unfold APT.list_installed.
    rewrite list_elem_of_In, filter_In, <- list_elem_of_In, apt_keys.
    unfold APT.installed_in. split.
    - intros [[d Hd] Hf]. exists d. split; [exact Hd|]. rewrite Hd in Hf.
      destruct (_all_available self); [now left|]. now right.
    - intros (d & Hd & Hor). rewrite Hd. split; [eauto|].
      destruct Hor as [-> | ->]; [reflexivity|]. apply orb_true_r. }
  split; [|split; [exact Hin|split]].
  - unfold APT.list_installed. apply NoDup_ListNoDup, List.NoDup_filter,
      NoDup_ListNoDup. unfold APT.keys.
    apply NoDup_fst_map_to_list.
  - intros pk key Hpk. apply Hin in Hpk as (d & Hd & _).
    unfold APT.get_package_details. rewrite Hd. cbn [bind].
    destruct (negb (_need_package_details self)); [discriminate|].
    destruct (_all_available self); [discriminate|].
    destruct (APT.installed d) as [ac_pkg|]; [|discriminate].
    destruct (APT.origins ac_pkg) as [|o os]; [discriminate|].
    change (item (o :: os) 0) with (Ok o). cbn [bind]. discriminate.
  - intros Ha Hn pk Hpk. apply Hin in Hpk as (d & Hd & _).
    unfold APT.get_package_details, APT.installed_in.
    now rewrite Hn, Hd, Ha.
Qed.

End AptFacts.

(** ** The listings *)

Section ListingFacts.

Implicit Types (run_command : command -> completed) (_cli : string).

Lemma failed_spec (r : completed) :
  failed r = false <-> return_code r = 0%Z /\ err r = "".
Proof.
  unfold failed. rewrite orb_false_iff, negb_false_iff, Z.eqb_eq.
  destruct (err r); simpl; intuition congruence.
Qed.


Lemma prefix_blank (s : string) :
  String.prefix PACMAN.blank_line s = true
  <-> exists t, s = String newline (String newline t).
Proof.
  unfold PACMAN.blank_line. split.
  - destruct s as [|a [|b t]]; cbn [String.prefix]; try discriminate.
    + destruct (Ascii.ascii_dec newline a); discriminate.
    + destruct (Ascii.ascii_dec newline a) as [<-|]; [|discriminate].
      destruct (Ascii.ascii_dec newline b) as [<-|]; [|discriminate].
      eauto.
  - intros [t ->]. cbn [String.prefix].
    destruct (Ascii.ascii_dec newline newline); [|congruence].
    now destruct t.
Qed.

Lemma split_block (b rest : string) :
  pacman_block b ->
  Py.split_str PACMAN.blank_line (b ++ PACMAN.blank_line ++ rest)
  = b :: Py.split_str PACMAN.blank_line rest.
Proof.
  unfold pacman_block, Py.split_str. induction b as [|a b IH]; intros Hb.
  - change ("" ++ PACMAN.blank_line ++ rest)
      with (String newline (String newline rest)).
    cbn [Py.split_str_from].
    rewrite (proj2 (prefix_blank _)) by eauto. reflexivity.
  - cbn [occurs String.append] in Hb. apply orb_false_iff in Hb as [Hp Ho].
    cbn [String.append Py.split_str_from].
    fold (String.append b (PACMAN.blank_line ++ rest)).
    assert (Hq : String.prefix PACMAN.blank_line
                   (String a (b ++ PACMAN.blank_line ++ rest)) = false).
    { destruct (String.prefix _ (String a (b ++ _ ++ rest))) eqn:E;
        [|reflexivity].
      apply prefix_blank in E as [t E]. injection E as -> E.
      assert (X : String.prefix PACMAN.blank_line
                    (String newline (b ++ String newline "")) = true).
      { apply prefix_blank. destruct b as [|c b]; simpl in E |- *.
        - eauto.
        - injection E as -> _. eauto. }
      congruence. }
    rewrite Hq, (IH Ho). reflexivity.
Qed.

Lemma split_no_blank (s : string) :
  occurs PACMAN.blank_line s = false ->
  Py.split_str PACMAN.blank_line s = [s].
Proof.
  unfold Py.split_str. induction s as [|a s IH]; intros H.
  - reflexivity.
  - cbn [occurs] in H. apply orb_false_iff in H as [Hp Ho].
    cbn [Py.split_str_from]. rewrite Hp, (IH Ho). reflexivity.
Qed.

Lemma split_blocks (blocks : list string) (tail : string) :
  (forall b, b ∈ blocks -> pacman_block b) ->
  occurs PACMAN.blank_line tail = false ->
  Py.split_str PACMAN.blank_line
    (String.concat "" ((fun b => b ++ PACMAN.blank_line) <$> blocks) ++ tail)
  = (blocks ++ [tail])%list.
Proof.
  intros Hb Ht. induction blocks as [|b blocks IH].
  - simpl. now apply split_no_blank.
  - rewrite fmap_cons, concat_cons, !append_assoc.
    rewrite split_block by (apply Hb; now left).
    rewrite IH by (intros b' Hb'; apply Hb; now right). reflexivity.
Qed.

(** X25: the pacman listing raises an [Exception] when the command
    ends with another exit code than 0 or writes on its error output;
    otherwise it cuts the output at the empty lines and drops what
    follows the last one: for an output made of blocks, each followed by
    an empty line, and of a text without empty line after them, it
    returns the blocks. *)
Theorem pacman_listing_blocks _cli run_command (blocks : list string)
    (tail : string) :
  let r := run_command (Argv [_cli; "-Qi"] [("LC_ALL", "C")]) in
  (return_code r <> 0%Z \/ err r <> "" ->
   PACMAN.list_installed _cli run_command
   = inl (Exception (unable_to_list (return_code r) (err r))))
  /\ (return_code r = 0%Z -> err r = "" ->
      (forall b, b ∈ blocks -> pacman_block b) ->
      occurs PACMAN.blank_line tail = false ->
      out r
      = String.concat "" ((fun b => b ++ PACMAN.blank_line) <$> blocks)
        ++ tail ->
      PACMAN.list_installed _cli run_command = inr blocks).
Proof.
  intros r. unfold PACMAN.list_installed. fold r. split.
  - intros H. destruct (failed r) eqn:Hf; [reflexivity|].
    apply failed_spec in Hf as [Hc He]. now destruct H.
  - intros Hc He Hb Ht Ho.
    rewrite (proj2 (failed_spec r) (conj Hc He)), Ho, split_blocks
      by assumption.
    now rewrite removelast_last.
Qed.

End ListingFacts.

(** ** The probes *)

Section ProbeCases.

Implicit Types (self : PkgMgr) (e : env).

Ltac probe_crush :=
  repeat match goal with
    | |- _ /\ _ => split
    | |- _ <-> _ => split
    | |- forall _, _ => intro
    | H : _ /\ _ |- _ => destruct H
    | H : is_Some None |- _ => destruct H as [? H]; discriminate H
    | H : forall path, Respawns ?p <> Respawns path |- _ =>
        destruct (H p eq_refl)
    | H : ?x <> ?x |- _ => destruct (H eq_refl)
    end;
  try discriminate; try congruence; eauto.

(** X10: the rpm probe never raises; rpm is available exactly when
    installed packages are asked for and the binding imports; the
    warning about the missing binding is given exactly when installed
    packages are asked for, the rpm program is found, the binding does
    not import and the process does not respawn. *)
Theorem rpm_probe_cases self e :
  (forall msg, probe_ending (RPM.is_available self e) <> Raises msg)
  /\ (probe_ending (RPM.is_available self e) = Returns true <->
      _all_available self = false /\ lib_importable e RPM.LIB = true)
  /\ (probe_warnings (RPM.is_available self e) <> [] <->
      _all_available self = false
      /\ lib_importable e RPM.LIB = false
      /\ is_Some (get_bin_path e "rpm")
      /\ forall path,
           probe_ending (RPM.is_available self e) <> Respawns path).
Proof.
  unfold RPM.is_available.
  destruct (_all_available self); [simpl; probe_crush|].
  destruct (lib_importable e RPM.LIB);
    destruct (get_bin_path e "rpm") as [bin|];
    cbn [negb andb]; try (simpl; probe_crush; fail).
  destruct (has_respawned e); cbn [negb];
    [|destruct (found_interpreter _) as [path|]];
    simpl; probe_crush.
Qed.

(** What the apt probe finds among the programs that tell an apt
    system. *)
Lemma apt_look_for_cases e (exes : list string) :
  (forall msg, probe_ending (APT.look_for e exes) <> Raises msg)
  /\ probe_ending (APT.look_for e exes) <> Returns true
  /\ ((forall path, probe_ending (APT.look_for e exes) <> Respawns path) ->
      probe_warnings (APT.look_for e exes) =
      match List.find (fun exe => bool_decide (is_Some (get_bin_path e exe)))
                      exes with
      | Some exe =>
          ["Found " ++ dquote ++ exe ++ dquote ++ " but "
           ++ missing_required_lib e "apt"]
      | None => []
      end).
Proof.
  induction exes as [|exe rest IH]; cbn [APT.look_for List.find].
  - simpl. probe_crush.
  - destruct (get_bin_path e exe) as [bin|] eqn:B.
    + rewrite bool_decide_eq_true_2 by eauto.
      destruct (has_respawned e); cbn [negb];
        [|destruct (found_interpreter _) as [path|]];
        cbn [probe_ending probe_warnings]; probe_crush.
    + rewrite bool_decide_eq_false_2 by (intros [x H]; discriminate H).
      exact IH.
Qed.

(** X11: the apt probe never raises and apt is available exactly when
    the binding imports, in both modes; when the binding is missing and
    the process does not respawn, the probe warns once, for the first of
    [apt], [apt-get], [aptitude] that is found, and gives no warning
    when none is found. *)
Theorem apt_probe_cases self e :
  (forall msg, probe_ending (APT.is_available self e) <> Raises msg)
  /\ (probe_ending (APT.is_available self e) = Returns true <->
      lib_importable e APT.LIB = true)
  /\ (lib_importable e APT.LIB = true ->
      probe_warnings (APT.is_available self e) = [])
  /\ (lib_importable e APT.LIB = false ->
      (forall path,
         probe_ending (APT.is_available self e) <> Respawns path) ->
      probe_warnings (APT.is_available self e) =
      match List.find (fun exe => bool_decide (is_Some (get_bin_path e exe)))
                      ["apt"; "apt-get"; "aptitude"] with
      | Some exe =>
          ["Found " ++ dquote ++ exe ++ dquote ++ " but "
           ++ missing_required_lib e "apt"]
      | None => []
      end).
Proof.
  unfold APT.is_available.
  destruct (apt_look_for_cases e ["apt"; "apt-get"; "aptitude"])
    as (H1 & H2 & H3).
  destruct (lib_importable e APT.LIB); cbn [negb].
  - simpl. probe_crush.
  - split; [exact H1|]. split; [split; [now intros H | discriminate]|].
    split; [discriminate|]. intros _. exact H3.
Qed.

End ProbeCases.

(** ** Runs of the selection *)

Section RunFacts.

Context {world : Type}.
Variable package_manager_names : list string.
Variable set_order : gset string -> list string.
Variable is_available : string -> PkgMgr -> world -> probe * world.
Variable get_packages :
  string -> PkgMgr -> world -> (string + catalog) * world.

Local Open Scope list_scope.

Local Abbreviation attempt_of := (attempt is_available get_packages).
Local Abbreviation iterate_of := (iterate is_available get_packages).
Local Abbreviation run_main :=
  (main package_manager_names set_order is_available get_packages).

Implicit Types (p : params) (st : @state world) (pkgmgr t : string).

(** The candidates of a run, before and after the prioritization. *)
Local Abbreviation candidates p :=
  (expand package_manager_names (Py.lower <$> manager p)).
Local Abbreviation ordered p :=
  (prioritize (elem "auto" (Py.lower <$> manager p)) (strategy p)
     (candidates p)).

(** A run either fails the validation, or is the loop over the
    candidates from the initial state. *)
Lemma main_cases p (w : world) :
  (list_to_set (candidates p) ∖ list_to_set package_manager_names
     ≠ (∅ : gset string)
   /\ exists msg, run_main p w = Run (fail_json msg) [] [])
  \/ (candidates p ⊆ package_manager_names
      /\ let r := iterate_of p (ordered p) (State 0 ∅ ∅ [] [] w) in
         run_events (run_main p w) = events r.1
         /\ run_warnings (run_main p w) = warnings r.1
         /\ run_outcome (run_main p w) =
            match r.2 with
            | Some path => respawned path
            | None =>
                if (found r.1 =? 0)%nat
                then fail_json (msg_none_found (ordered p))
                else exit_json (result_name p) (packages r.1)
            end).
Proof.
  unfold main.
  destruct (decide (list_to_set (candidates p)
                      ∖ list_to_set package_manager_names
                    = (∅ : gset string))) as [E | E].
  - right. split.
    + intros x Hx. destruct (decide (x ∈ package_manager_names)); [easy|].
      assert (H : x ∈ (list_to_set (candidates p)
                         ∖ list_to_set package_manager_names : gset string))
        by now rewrite elem_of_difference, !elem_of_list_to_set.
      rewrite E in H. now apply not_elem_of_empty in H.
    + rewrite bool_decide_eq_true_2 by exact E. cbn [negb].
      destruct (iterate_of p _ _) as [st [path|]]; simpl; [easy|].
      now destruct (found st =? 0)%nat.
  - left. split; [exact E|].
    rewrite bool_decide_eq_false_2 by exact E. cbn [negb]. eauto.
Qed.

Lemma prioritize_elem (auto : bool) (strat : strategy_t) (l : list string) t :
  t ∈ prioritize auto strat l <-> t ∈ l.
Proof.
  destruct (prioritize_cases auto strat l) as [H1 H2].
  destruct auto; [|now rewrite H2 by auto].
  destruct strat; [|now rewrite H2 by auto].
  destruct (decide ("rpm" ∈ l)) as [Hr|]; [|now rewrite H2 by auto].
  destruct (decide ("yum" ∈ l)) as [Hy|]; [|now rewrite H2 by auto].
  destruct (H1 eq_refl eq_refl Hr Hy) as (_ & _ & Hp). now rewrite Hp.
Qed.

(** *** The first strategy lists one backend at most *)

Lemma attempt_found p pkgmgr st :
  found (attempt_of p pkgmgr st).1 <= S (found st).
Proof.
  destruct (attempt_shape is_available get_packages p pkgmgr st)
    as (_ & [[_ ->] | [_ ->]]); lia.
Qed.

Lemma iterate_first_found p (managers : list string) :
  strategy p = first ->
  forall st, found st <= 1 -> found (iterate_of p managers st).1 <= 1.
Proof.
  intros Hs. induction managers as [|pkgmgr rest IH]; intros st Hf; simpl.
  - exact Hf.
  - rewrite Hs. simpl. rewrite andb_true_r.
    destruct (0 <? found st)%nat eqn:E; [exact Hf|].
    apply Nat.ltb_ge in E.
    case_bool_decide as Hseen; [now apply IH|].
    pose proof (attempt_found p pkgmgr st) as Ha.
    destruct (attempt_of p pkgmgr st) as [st' [path|]]; simpl in *.
    + lia.
    + apply IH. lia.
Qed.

(** X1: under the [first] strategy the listing is called for one
    backend at most in a run. *)
Theorem first_strategy_lists_once p (w : world) :
  strategy p = first ->
  List.length
    (List.filter is_listed
       (run_events
          (main package_manager_names set_order is_available get_packages
             p w))) <= 1.
Proof.
  intros Hs. destruct (main_cases p w) as [[_ [msg ->]] | [_ (He & _)]].
  - simpl. lia.
  - rewrite He.
    pose proof (iterate_consistent is_available get_packages p (ordered p) _
                  (initial_consistent w)) as (_ & _ & Hc).
    rewrite <- Hc. apply iterate_first_found; [exact Hs | simpl; lia].
Qed.

(** *** Only candidates are attempted *)

Lemma attempt_tags p pkgmgr st ev :
  ev ∈ events (attempt_of p pkgmgr st).1 ->
  ev ∈ events st \/ tag_of ev = pkgmgr.
Proof.
  destruct (attempt_shape is_available get_packages p pkgmgr st)
    as (_ & [[-> _] | [-> _]]); intros Hev;
    apply elem_of_app in Hev as [Hev | Hev]; auto; right.
  - apply list_elem_of_singleton in Hev. now subst ev.
  - apply elem_of_cons in Hev as [-> | Hev]; [reflexivity|].
    apply list_elem_of_singleton in Hev. now subst ev.
Qed.

Lemma iterate_tags p (managers : list string) :
  forall st ev,
    ev ∈ events (iterate_of p managers st).1 ->
    ev ∈ events st \/ tag_of ev ∈ managers.
Proof.
  induction managers as [|pkgmgr rest IH]; intros st ev; simpl.
  - auto.
  - destruct ((0 <? found st)%nat && is_first (strategy p)); [auto|].
    case_bool_decide as Hseen.
    + intros Hev. apply IH in Hev as [Hev | Hev]; auto. right. now right.
    + pose proof (attempt_tags p pkgmgr st ev) as Ha.
      destruct (attempt_of p pkgmgr st) as [st' [path|]]; simpl in *.
      * intros Hev. apply Ha in Hev as [Hev | <-]; auto. right. now left.
      * intros Hev. apply IH in Hev as [Hev | Hev]; [|right; now right].
        apply Ha in Hev as [Hev | <-]; auto. right. now left.
Qed.

(** X2: every backend a run builds, probes or lists is a candidate of
    the request (a requested tag in lower case, or a known tag when
    [auto] is requested) and a known tag: no other backend is touched. *)
Theorem attempted_are_candidates p (w : world) ev :
  ev ∈ run_events
         (main package_manager_names set_order is_available get_packages
            p w) ->
  tag_of ev ∈ expand package_manager_names (Py.lower <$> manager p)
  /\ tag_of ev ∈ package_manager_names.
Proof.
  destruct (main_cases p w) as [[_ [msg ->]] | [Hsub (He & _)]].
  - intros H. now apply elem_of_nil in H.
  - rewrite He. intros H. apply iterate_tags in H as [H | H].
    + now apply elem_of_nil in H.
    + apply prioritize_elem in H. split; [exact H | now apply Hsub].
Qed.

(** *** Every candidate is probed *)

Lemma attempt_probed p pkgmgr st :
  (forall t, t ∈ seen st -> Probed t ∈ events st) ->
  forall t, t ∈ seen (attempt_of p pkgmgr st).1 ->
            Probed t ∈ events (attempt_of p pkgmgr st).1.
Proof.
  intros Hinv t.
  destruct (attempt_shape is_available get_packages p pkgmgr st)
    as (-> & [[-> _] | [-> _]]); intros Hin;
    apply elem_of_union in Hin as [Hin | Hin];
    apply elem_of_app;
    try (apply elem_of_singleton in Hin; subst t; right; now left);
    left; now apply Hinv.
Qed.

Lemma iterate_probes_all p (managers : list string) :
  forall st,
    (forall t, t ∈ seen st -> Probed t ∈ events st) ->
    (iterate_of p managers st).2 = None ->
    strategy p = all \/ found (iterate_of p managers st).1 = 0 ->
    forall t, t ∈ managers ->
              Probed t ∈ events (iterate_of p managers st).1.
Proof.
  induction managers as [|pkgmgr rest IH]; intros st Hinv Hnone Hgo t Ht.
  - now apply elem_of_nil in Ht.
  - simpl in *.
    destruct ((0 <? found st)%nat && is_first (strategy p)) eqn:G.
    + exfalso. apply andb_prop in G as [G1 G2].
      apply Nat.ltb_lt in G1. simpl in Hgo.
      destruct Hgo as [Hgo | Hgo]; [now rewrite Hgo in G2 | lia].
    + case_bool_decide as Hseen.
      * apply elem_of_cons in Ht as [-> | Ht]; [|now apply IH].
        destruct (iterate_events is_available get_packages p rest st)
          as (evs & ->).
        apply elem_of_app. left. now apply Hinv.
      * pose proof (attempt_probed p pkgmgr st Hinv) as Hinv'.
        pose proof (attempt_shape is_available get_packages p pkgmgr st)
          as (Hs & _).
        destruct (attempt_of p pkgmgr st) as [st' [path|]]; simpl in *;
          [discriminate Hnone|].
        apply elem_of_cons in Ht as [-> | Ht]; [|now apply IH].
        destruct (iterate_events is_available get_packages p rest st')
          as (evs & ->).
        apply elem_of_app. left. apply Hinv'. rewrite Hs.
        apply elem_of_union_l. now apply elem_of_singleton.
Qed.

(** X3: in a run that passes the validation and does not respawn, every
    candidate is probed when the strategy is [all], and also when the
    run fails for want of a backend. *)
Theorem every_candidate_probed p (w : world) t :
  let r := main package_manager_names set_order is_available get_packages
             p w in
  expand package_manager_names (Py.lower <$> manager p)
    ⊆ package_manager_names ->
  (strategy p = all /\ (forall path, run_outcome r <> respawned path))
  \/ (exists msg, run_outcome r = fail_json msg) ->
  t ∈ expand package_manager_names (Py.lower <$> manager p) ->
  Probed t ∈ run_events r.
Proof.
  intros r Hsub Hcase Ht. subst r.
  destruct (main_cases p w) as [[Hne _] | [_ (He & _ & Ho)]].
  - exfalso. apply Hne. apply set_eq. intros x.
    rewrite elem_of_difference, !elem_of_list_to_set.
    split; [|now intros H%not_elem_of_empty].
    intros [Hx Hn]. destruct Hn. now apply Hsub.
  - rewrite He. rewrite Ho in Hcase.
    apply iterate_probes_all.
    + intros x Hx. now apply not_elem_of_empty in Hx.
    + destruct (iterate_of p _ _).2 as [path|]; [|reflexivity].
      destruct Hcase as [[_ H] | [msg H]]; [now destruct (H path)|].
      discriminate H.
    + destruct Hcase as [[H _] | [msg H]]; [now left|]. right.
      destruct (iterate_of p _ _).2 as [path|]; [discriminate H|].
      destruct (found _ =? 0)%nat eqn:E; [|discriminate H].
      now apply Nat.eqb_eq.
    + now apply prioritize_elem.
Qed.

(** *** A respawn ends the run *)

Lemma attempt_respawns p pkgmgr st path :
  (attempt_of p pkgmgr st).2 = Some path ->
  events (attempt_of p pkgmgr st).1 = events st ++ [Probed pkgmgr]
  /\ probe_ending
       (is_available pkgmgr
          (Manager (need_package_details p) (all_available p))
          (host st)).1 = Respawns path.
Proof.
  unfold attempt. destruct (is_available _ _ _) as [pr w0]. simpl.
  destruct (probe_ending pr) as [[|]|exc|path']; simpl.
  - now destruct (get_packages _ _ _) as [[exc|pkgs] w'].
  - discriminate.
  - discriminate.
  - now intros [= ->].
Qed.

Lemma iterate_respawns p (managers : list string) path :
  forall st,
    (iterate_of p managers st).2 = Some path ->
    exists evs pkgmgr w0,
      events (iterate_of p managers st).1 = evs ++ [Probed pkgmgr]
      /\ pkgmgr ∈ managers
      /\ probe_ending
           (is_available pkgmgr
              (Manager (need_package_details p) (all_available p)) w0).1
         = Respawns path.
Proof.
  induction managers as [|pkgmgr rest IH]; intros st; simpl.
  - discriminate.
  - destruct ((0 <? found st)%nat && is_first (strategy p));
      [discriminate|].
    case_bool_decide as Hseen.
    + intros H. destruct (IH st H) as (evs & t & w0 & He & Ht & Hp).
      exists evs, t, w0. split; [exact He|]. split; [now right | exact Hp].
    + pose proof (attempt_respawns p pkgmgr st) as Ha.
      destruct (attempt_of p pkgmgr st) as [st' [path'|]]; simpl in *.
      * intros [= ->]. destruct (Ha path eq_refl) as [He Hp].
        exists (events st), pkgmgr, (host st).
        split; [exact He|]. split; [now left | exact Hp].
      * intros H. destruct (IH st' H) as (evs & t & w0 & He & Ht & Hp).
        exists evs, t, w0. split; [exact He|]. split; [now right | exact Hp].
Qed.

(** X4: a run ends respawned only when the probe of a candidate called
    [respawn_module] with that interpreter, and that probe is the last
    call of the run: no backend is probed or listed after it. *)
Theorem respawn_ends_run p (w : world) path :
  run_outcome
    (main package_manager_names set_order is_available get_packages p w)
  = respawned path ->
  exists evs pkgmgr w0,
    run_events
      (main package_manager_names set_order is_available get_packages p w)
    = evs ++ [Probed pkgmgr]
    /\ pkgmgr ∈ expand package_manager_names (Py.lower <$> manager p)
    /\ probe_ending
         (is_available pkgmgr
            (Manager (need_package_details p) (all_available p)) w0).1
       = Respawns path.
Proof.
  destruct (main_cases p w) as [[_ [msg ->]] | [_ (He & _ & Ho)]].
  - discriminate.
  - rewrite He, Ho.
    destruct (iterate_of p _ _).2 as [path'|] eqn:E.
    + intros [= ->].
      destruct (iterate_respawns p _ path _ E) as (evs & t & w0 & H1 & H2 & H3).
      exists evs, t, w0. split; [exact H1|].
      split; [now apply prioritize_elem in H2 | exact H3].
    + now destruct (found _ =? 0)%nat.
Qed.

(** X5: a run exits with facts only when the listing of some backend
    was called; the facts are named [available_packages] in
    all-available mode and [packages] otherwise. *)
Theorem exit_needs_listing p (w : world) name (c : catalog) :
  run_outcome
    (main package_manager_names set_order is_available get_packages p w)
  = exit_json name c ->
  name = (if all_available p then "available_packages" else "packages")
  /\ exists pkgmgr,
       Listed pkgmgr ∈
         run_events
           (main package_manager_names set_order is_available get_packages
              p w).
Proof.
  destruct (main_cases p w) as [[_ [msg ->]] | [_ (He & _ & Ho)]].
  - discriminate.
  - rewrite He, Ho.
    pose proof (iterate_consistent is_available get_packages p (ordered p) _
                  (initial_consistent w)) as (_ & _ & Hc).
    destruct (iterate_of p _ _) as [st [path'|]]; simpl in *; [discriminate|].
    destruct (found st =? 0)%nat eqn:E; [discriminate|].
    intros [= <- <-]. split; [reflexivity|].
    apply Nat.eqb_neq in E. rewrite Hc in E.
    destruct (List.filter is_listed (events st)) as [|ev l] eqn:F;
      [now destruct E|].
    assert (Hin : List.In ev (List.filter is_listed (events st)))
      by (rewrite F; now left).
    apply List.filter_In in Hin as [Hin Hl].
    destruct ev as [t|t]; [discriminate Hl|].
    exists t. now apply list_elem_of_In.
Qed.

(** *** Tags outside the known set *)

Lemma remove_first_app (x : string) (l l' : list string) :
  x ∈ l -> remove_first x (l ++ l') = remove_first x l ++ l'.
Proof.
  induction l as [|y l IH]; intros H; [now apply elem_of_nil in H|].
  cbn [remove_first app]. destruct (String.eqb_spec x y) as [->|Hy];
    [reflexivity|].
  apply elem_of_cons in H as [-> | H]; [now destruct Hy|].
  cbn [app]. now rewrite (IH H).
Qed.

Lemma unknown_candidate_fails p (w : world) t :
  t ∈ expand package_manager_names (Py.lower <$> manager p) ->
  t ∉ package_manager_names ->
  exists msg, run_main p w = Run (fail_json msg) [] [].
Proof.
  intros Ht Hn. destruct (main_cases p w) as [[_ H] | [Hsub _]];
    [exact H|]. destruct Hn. now apply Hsub.
Qed.

(** X6: only the first [auto] of a request is expanded: when [auto] is
    requested twice and is not itself a known tag, the second one is an
    unsupported tag and the run fails before any backend is attempted. *)
Theorem second_auto_is_unsupported p (w : world) :
  "auto" ∈ remove_first "auto" (Py.lower <$> manager p) ->
  "auto" ∉ package_manager_names ->
  exists msg,
    main package_manager_names set_order is_available get_packages p w
    = Run (fail_json msg) [] [].
Proof.
  intros H2 Hn. apply (unknown_candidate_fails p w "auto"); [|exact Hn].
  unfold expand.
  assert (H1 : "auto" ∈ Py.lower <$> manager p)
    by now apply remove_first_subset in H2.
  rewrite (proj2 (elem_spec _ _) H1), (remove_first_app _ _ _ H1).
  apply elem_of_app. now left.
Qed.

(** *** The catalog *)

(** X7: the catalog a backend lists is merged by name: for every name
    the backend reports, its records replace the ones an earlier backend
    reported, and the other names are kept; the loop then goes on from
    that state with the count of found backends one higher. *)
Theorem listing_replaces_by_name p pkgmgr (rest : list string) st
    (pkgs : catalog) :
  pkgmgr ∉ seen st ->
  (0 <? found st)%nat && is_first (strategy p) = false ->
  let self := Manager (need_package_details p) (all_available p) in
  let r := is_available pkgmgr self (host st) in
  probe_ending r.1 = Returns true ->
  (get_packages pkgmgr self r.2).1 = inr pkgs ->
  exists st',
    iterate is_available get_packages p (pkgmgr :: rest) st
    = iterate is_available get_packages p rest st'
    /\ found st' = S (found st)
    /\ (forall name recs, pkgs !! name = Some recs ->
          packages st' !! name = Some recs)
    /\ (forall name, pkgs !! name = None ->
          packages st' !! name = packages st !! name).
Proof.
  intros Hseen Hgo self r Hr Hl. subst self r.
  simpl. rewrite Hgo, bool_decide_eq_false_2 by exact Hseen.
  unfold attempt. destruct (is_available _ _ _) as [pr w0]. simpl in *.
  rewrite Hr. destruct (get_packages _ _ _) as [res w']. simpl in *.
  subst res. eexists. split; [reflexivity|]. simpl.
  split; [reflexivity|]. split.
  - intros name recs H. now apply lookup_union_Some_l.
  - intros name H. now apply lookup_union_r.
Qed.

(** *** Warnings *)

Lemma attempt_silent p pkgmgr st :
  elem pkgmgr (manager p) = false ->
  (forall t self w0, probe_warnings (is_available t self w0).1 = []) ->
  warnings st = [] -> warnings (attempt_of p pkgmgr st).1 = [].
Proof.
  intros Hreq Hq Hw. unfold attempt.
  pose proof (Hq pkgmgr (Manager (need_package_details p) (all_available p))
                (host st)) as Hp.
  destruct (is_available _ _ _) as [pr w0]. simpl in *.
  unfold warn_requested. rewrite Hreq.
  destruct (probe_ending pr) as [[|]|exc|path']; simpl;
    try (now rewrite Hw, Hp).
  destruct (get_packages _ _ _) as [[exc|pkgs] w']; simpl;
    now rewrite Hw, Hp.
Qed.

Lemma iterate_silent p (managers : list string) :
  (forall t, t ∈ managers -> elem t (manager p) = false) ->
  (forall t self w0, probe_warnings (is_available t self w0).1 = []) ->
  forall st, warnings st = [] ->
             warnings (iterate_of p managers st).1 = [].
Proof.
  intros Hreq Hq. induction managers as [|pkgmgr rest IH]; intros st Hw.
  - exact Hw.
  - simpl.
    destruct ((0 <? found st)%nat && is_first (strategy p)); [exact Hw|].
    assert (Hrest : forall t, t ∈ rest -> elem t (manager p) = false)
      by (intros t Ht; apply Hreq; now right).
    case_bool_decide as Hseen; [now apply IH|].
    pose proof (attempt_silent p pkgmgr st
                  (Hreq pkgmgr ltac:(now left)) Hq Hw) as Ha.
    destruct (attempt_of p pkgmgr st) as [st' [path'|]]; simpl in *.
    + exact Ha.
    + now apply IH.
Qed.

(** X8: the errors of backends reached only through [auto] are not
    reported: when no known tag is written in the request and the probes
    give no warning of their own, a run has no warning at all, whatever
    the backends raise. *)
Theorem auto_errors_are_silent p (w : world) :
  (forall t, t ∈ package_manager_names -> t ∉ manager p) ->
  (forall t self w0, probe_warnings (is_available t self w0).1 = []) ->
  run_warnings
    (main package_manager_names set_order is_available get_packages p w)
  = [].
Proof.
  intros Hreq Hq.
  destruct (main_cases p w) as [[_ [msg ->]] | [Hsub (_ & Hw & _)]].
  - reflexivity.
  - rewrite Hw. apply iterate_silent; [|exact Hq | reflexivity].
    intros t Ht. apply prioritize_elem in Ht.
    apply elem_false. apply Hreq. now apply Hsub.
Qed.

End RunFacts.

(** ** The rpm backend in all-available mode *)

Section AllAvailable.

Variable package_manager_names : list string.
Variable set_order : gset string -> list string.
Variable cli_is_available : string -> PkgMgr -> env -> probe.
Variable get_packages : string -> PkgMgr -> env -> string + catalog.

Local Open Scope list_scope.

Local Abbreviation probe_of := (backend_is_available cli_is_available).
Local Abbreviation listing_of := (backend_get_packages get_packages).

Implicit Types (p : params) (e : env) (st : @state env).

Lemma attempt_rpm_all_available p st :
  all_available p = true ->
  events (attempt probe_of listing_of p "rpm" st).1
  = events st ++ [Probed "rpm"].
Proof.
  intros Ha. unfold attempt, backend_is_available. simpl String.eqb.
  unfold RPM.is_available. cbn [_all_available]. now rewrite Ha.
Qed.

Lemma iterate_rpm_all_available p (managers : list string) :
  all_available p = true ->
  forall st,
    Listed "rpm" ∉ events st ->
    Listed "rpm" ∉ events (iterate probe_of listing_of p managers st).1.
Proof.
  intros Ha. induction managers as [|pkgmgr rest IH]; intros st Hst; simpl.
  - exact Hst.
  - destruct ((0 <? found st)%nat && is_first (strategy p)); [exact Hst|].
    case_bool_decide as Hseen; [now apply IH|].
    assert (Hst' : Listed "rpm"
                   ∉ events (attempt probe_of listing_of p pkgmgr st).1).
    { destruct (String.eqb_spec pkgmgr "rpm") as [-> | Hne].
      - rewrite (attempt_rpm_all_available p st Ha). intros H.
        apply elem_of_app in H as [H | H]; [now apply Hst|].
        apply list_elem_of_singleton in H. discriminate H.
      - intros H. apply attempt_tags in H as [H | H]; [now apply Hst|].
        simpl in H. now destruct Hne. }
    destruct (attempt _ _ _ _ _) as [st' [path|]]; simpl in *.
    + exact Hst'.
    + now apply IH.
Qed.

(** X9: when all available packages are asked for, the rpm backend is
    probed like any candidate but never lists: its probe returns false
    first of all, since the rpm library only reads the packages that
    are installed. *)
Theorem rpm_never_lists_all_available p e :
  all_available p = true ->
  Listed "rpm" ∉
    run_events
      (main package_manager_names set_order
         (backend_is_available cli_is_available)
         (backend_get_packages get_packages) p e).
Proof.
  intros Ha.
  destruct (main_cases package_manager_names set_order probe_of listing_of
              p e) as [[_ [msg ->]] | [_ (He & _)]].
  - apply not_elem_of_nil.
  - rewrite He. apply iterate_rpm_all_available; [exact Ha|].
    apply not_elem_of_nil.
Qed.

End AllAvailable.

(** ** Instances *)

Local Open Scope list_scope.

Lemma first_strategy_lists_once_witness :
  List.length
    (List.filter is_listed
       (run_events
          (main ["rpm"; "apt"] elements every_backend_available
             rpm_listing_raises requested tt))) <= 1.
Proof.
  apply (first_strategy_lists_once ["rpm"; "apt"] elements
           every_backend_available rpm_listing_raises requested tt).
  reflexivity.
Defined.

Lemma attempted_are_candidates_witness :
  tag_of (Probed "rpm")
    ∈ expand ["rpm"; "apt"] (Py.lower <$> manager requested)
  /\ tag_of (Probed "rpm") ∈ ["rpm"; "apt"].
Proof.
  apply (attempted_are_candidates ["rpm"; "apt"] elements
           every_backend_available rpm_listing_raises requested tt
           (Probed "rpm")).
  replace (run_events _) with [Probed "rpm"; Listed "rpm"]
    by (vm_compute; reflexivity).
  left.
Defined.

Lemma every_candidate_probed_witness :
  Probed "rpm"
    ∈ run_events
        (main ["apt"; "rpm"] elements every_backend_available
           rpm_listing_raises (Params ["apt"; "rpm"] all false true) tt).
Proof.
  apply (every_candidate_probed ["apt"; "rpm"] elements
           every_backend_available rpm_listing_raises
           (Params ["apt"; "rpm"] all false true) tt "rpm").
  - change (["apt"; "rpm"] ⊆ ["apt"; "rpm"]). reflexivity.
  - left. split; [reflexivity|]. intros path. vm_compute. discriminate.
  - change ("rpm" ∈ ["apt"; "rpm"]). right. left.
Defined.

Lemma respawn_ends_run_witness :
  exists evs pkgmgr w0,
    run_events
      (main ["rpm"] elements (backend_is_available program_found)
         (backend_get_packages no_packages)
         (Params ["auto"] first false true) host_without_binding)
    = evs ++ [Probed pkgmgr]
    /\ pkgmgr ∈ expand ["rpm"]
                  (Py.lower <$> manager (Params ["auto"] first false true))
    /\ probe_ending
         (backend_is_available program_found pkgmgr
            (Manager true false) w0).1
       = Respawns "/usr/libexec/platform-python".
Proof.
  apply (respawn_ends_run ["rpm"] elements
           (backend_is_available program_found)
           (backend_get_packages no_packages)
           (Params ["auto"] first false true) host_without_binding
           "/usr/libexec/platform-python").
  vm_compute. reflexivity.
Defined.

Lemma exit_needs_listing_witness :
  "packages" = "packages"
  /\ exists pkgmgr,
       Listed pkgmgr ∈
         run_events
           (main ["rpm"; "apt"] elements every_backend_available
              rpm_listing_raises requested tt).
Proof.
  apply (exit_needs_listing ["rpm"; "apt"] elements every_backend_available
           rpm_listing_raises requested tt "packages" ∅).
  vm_compute. reflexivity.
Defined.

Lemma second_auto_is_unsupported_witness :
  exists msg,
    main ["rpm"; "apt"] elements every_backend_available rpm_listing_raises
         (Params ["auto"; "auto"] first false true) tt
    = Run (fail_json msg) [] [].
Proof.
  apply (second_auto_is_unsupported ["rpm"; "apt"] elements
           every_backend_available rpm_listing_raises
           (Params ["auto"; "auto"] first false true) tt).
  - change ("auto" ∈ ["auto"]). left.
  - intros H. apply elem_of_cons in H as [H | H]; [discriminate H|].
    apply elem_of_cons in H as [H | H]; [discriminate H|].
    now apply elem_of_nil in H.
Defined.

Lemma listing_replaces_by_name_witness :
  exists st',
    iterate every_backend_available rpm_listing_raises requested ["apt"]
      (State 0 ∅ ∅ [] [] tt)
    = iterate every_backend_available rpm_listing_raises requested [] st'
    /\ found st' = 1
    /\ (forall name recs,
          ({[ "foo" := [ ({[ "name" := VStr "foo" ]} : record) ] ]} : catalog)
            !! name = Some recs ->
          packages st' !! name = Some recs)
    /\ (forall name,
          ({[ "foo" := [ ({[ "name" := VStr "foo" ]} : record) ] ]} : catalog)
            !! name = None ->
          packages st' !! name
          = packages (State 0 ∅ ∅ [] [] tt) !! name).
Proof.
  apply (listing_replaces_by_name every_backend_available rpm_listing_raises
           requested "apt" [] (State 0 ∅ ∅ [] [] tt)
           {[ "foo" := [ ({[ "name" := VStr "foo" ]} : record) ] ]});
    first [reflexivity | apply not_elem_of_empty].
Defined.

Lemma auto_errors_are_silent_witness :
  run_warnings
    (main ["rpm"; "apt"] elements every_backend_available rpm_listing_raises
       (Params ["auto"] first false true) tt)
  = [].
Proof.
  apply (auto_errors_are_silent ["rpm"; "apt"] elements
           every_backend_available rpm_listing_raises
           (Params ["auto"] first false true) tt).
  - intros t Ht Hin. apply list_elem_of_singleton in Hin. subst t.
    apply elem_of_cons in Ht as [H | H]; [discriminate H|].
    apply elem_of_cons in H as [H | H]; [discriminate H|].
    now apply elem_of_nil in H.
  - reflexivity.
Defined.

Lemma rpm_never_lists_all_available_witness :
  Listed "rpm" ∉
    run_events
      (main ["rpm"] elements (backend_is_available program_found)
         (backend_get_packages no_packages)
         (Params ["auto"] all true true) host_with_binding).
Proof.
  apply (rpm_never_lists_all_available ["rpm"] elements program_found
           no_packages (Params ["auto"] all true true) host_with_binding).
  reflexivity.
Defined.

Lemma apt_details_cases_witness :
  exists r,
    APT.get_package_details (Manager true false) one_package_cache "foo"
    = Ok r
    /\ r !! "name" = Some (VStr "foo")
    /\ r !! "version" = Some (VStr "1.0")
    /\ r !! "arch" = Some (VStr "amd64")
    /\ r !! "category" = Some (VStr "utils")
    /\ r !! "origin" = Some (VStr "Debian")
    /\ r !! "is_installed" = None.
Proof.
  exact (apt_details_cases (Manager true false) one_package_cache "foo"
           eq_refl).
Defined.

Lemma apk_name_version_release_witness :
  exists r,
    APK.get_package_details (Manager true false) apk_line = Ok r
    /\ r !! "name" = Some (VStr "busybox")
    /\ r !! "version" = Some (VStr "1.36.1")
    /\ r !! "release" = Some (VStr "r2").
Proof.
  destruct (apk_name_version_release (Manager true false) apk_line
              "busybox-1.36.1-r2" eq_refl) as (r & E & _ & _ & H).
  - split; [reflexivity|]. right.
    exists "x86_64 {busybox} (GPL-2.0-only) [installed]". reflexivity.
  - exists r. split; [exact E|].
    apply (H "busybox" "1.36.1" "r2"); reflexivity.
Defined.

Lemma pkg_kept_columns_witness :
  exists r,
    PKG.get_package_details (Manager true false) pkg_line = Ok r
    /\ r !! "name" = Some (VStr "foo")
    /\ r !! "origin" = Some (VStr "origin")
    /\ r !! "installed" = Some (VStr "1")
    /\ r !! "prefix" = Some (VStr "/usr/local").
Proof.
  assert (H : exists r,
            PKG.get_package_details (Manager true false) pkg_line = Ok r)
    by (eexists; vm_compute; reflexivity).
  destruct H as [r E]. exists r. split; [exact E|].
  exact (proj2 (pkg_kept_columns (Manager true false) pkg_line r E)).
Defined.

Lemma pkg_version_fields_witness :
  exists r,
    PKG.get_package_details (Manager true false) pkg_line = Ok r
    /\ r !! "port_epoch" = Some (VStr "1_3")
    /\ r !! "version" = Some (VStr "1.2")
    /\ r !! "revision" = Some (VStr "0").
Proof.
  assert (H : exists r,
            PKG.get_package_details (Manager true false) pkg_line = Ok r)
    by (eexists; vm_compute; reflexivity).
  destruct H as [r E]. exists r. split; [exact E|].
  destruct (pkg_version_fields (Manager true false) pkg_line r E)
    as [Hv0 _].
  destruct (Hv0 "1.2,1_3" eq_refl) as [H1 _].
  destruct (H1 "1.2" "1_3") as [Hp [_ Hv]].
  - split; reflexivity.
  - split; [exact Hp|]. now apply Hv.
Defined.

Lemma pkg_arch_and_category_witness :
  exists r,
    PKG.get_package_details (Manager true false) pkg_line = Ok r
    /\ r !! "arch" = Some (VStr "x86_64")
    /\ r !! "category" = Some (VStr "ports").
Proof.
  assert (H : exists r,
            PKG.get_package_details (Manager true false) pkg_line = Ok r)
    by (eexists; vm_compute; reflexivity).
  destruct H as [r E]. exists r. split; [exact E|].
  destruct (pkg_arch_and_category (Manager true false) pkg_line r E)
    as [Ha Hc].
  split.
  - exact (proj1 (Ha ":freebsd:x86_64" eq_refl)).
  - destruct (Hc "ports/foo" eq_refl) as [Hs _].
    apply (Hs "ports" "foo"). split; reflexivity.
Defined.

Lemma pacman_record_fields_witness :
  exists r,
    PACMAN.get_package_details (Manager true false) pacman_entry = Ok r
    /\ (exists name version arch,
          r !! "name" = Some (VStr name)
          /\ r !! "version" = Some (VStr version)
          /\ r !! "arch" = Some (VStr arch))
    /\ (r !! "provides" = Some VNone
        \/ exists names,
             r !! "provides" = Some (VList names)
             /\ forall n, n ∈ names -> Py.mem "=" n = false).
Proof.
  assert (H : exists r,
            PACMAN.get_package_details (Manager true false) pacman_entry
            = Ok r)
    by (eexists; vm_compute; reflexivity).
  destruct H as [r E].
  exists r. split; [exact E|].
  destruct (pacman_record_fields (Manager true false) pacman_entry r E)
    as (H1 & H2 & _).
  split; [exact H1 | exact H2].
Defined.

Lemma pacman_needs_four_keys_witness :
  exists line v,
    line ∈ Py.splitlines pacman_entry /\ pacman_pattern line "Provides" v.
Proof.
  assert (H : exists r,
            PACMAN.get_package_details (Manager true false) pacman_entry
            = Ok r)
    by (eexists; vm_compute; reflexivity).
  destruct H as [r E].
  apply (pacman_needs_four_keys (Manager true false) pacman_entry r E).
  left.
Defined.

Lemma pacman_continuation_lines_witness :
  PACMAN.read_lines (∅, None)
    ["Provides        : libfoo=1  bar"; "                  baz=2"]
  = Ok ({[ "Provides" := "libfoo=1  bar  baz=2" ]}, Some "Provides").
Proof.
  refine (eq_trans
    (pacman_continuation_lines "Provides        : libfoo=1  bar"
       "Provides" "libfoo=1  bar" ["                  baz=2"] ∅ None _ _) _).
  - apply key_value_pattern. vm_compute. reflexivity.
  - intros c Hc k' v' Hp. apply key_value_pattern in Hp.
    apply list_elem_of_singleton in Hc. subst c. vm_compute in Hp.
    discriminate Hp.
  - vm_compute. reflexivity.
Defined.


Lemma pacman_listing_blocks_witness :
  PACMAN.list_installed "pacman" two_blocks_host
  = inr ["Name : a"; "Name : b"].
Proof.
  apply (pacman_listing_blocks "pacman" two_blocks_host
           ["Name : a"; "Name : b"] "").
  - reflexivity.
  - reflexivity.
  - intros b Hb.
    repeat (apply elem_of_cons in Hb as [-> | Hb]; [reflexivity|]).
    now apply elem_of_nil in Hb.
  - reflexivity.
  - reflexivity.
Defined.
